(** * Task store of the Auto-Claude UI: status derivation, progress merging,
      recovery and review

    Shallow embedding of
    [auto-claude-ui/src/renderer/stores/task-store.ts] (the zustand store
    and the helper functions around it) and of the review handlers of the
    [TaskDetailPanel] component, followed by the properties of the task
    lifecycle that the specification states about them.

    JavaScript objects whose shape matters (the execution progress that is
    merged with the spread operator) are finite maps from property names to
    values; the task itself is a record; [new Date()] reads a clock that is
    passed in as an argument; calls over the IPC bridge are outcomes handed
    to the renderer function. *)

From Stdlib Require Import ZArith NArith List Bool String Lia.
From stdpp Require Import base option list gmap strings fin_maps.

Open Scope Z_scope.
Open Scope string_scope.

(** ** Enumerations of [shared/types]

    Modelled from the spec: the type declarations of [shared/types] are
    not among the sources; the values are those of the data model, which
    are also the string literals that the store compares against. *)

Module TaskStatus.
Inductive t := backlog | in_progress | ai_review | human_review | done.
#[global] Instance eq_dec : EqDecision t.
Proof. solve_decision. Defined.
End TaskStatus.

Module ReviewReason.
Inductive t := completed | errors | qa_issues.
#[global] Instance eq_dec : EqDecision t.
Proof. solve_decision. Defined.
End ReviewReason.

Module ChunkStatus.
Inductive t := pending | in_progress | completed | failed.
#[global] Instance eq_dec : EqDecision t.
Proof. solve_decision. Defined.
End ChunkStatus.

Module ExecutionPhase.
Inductive t := idle | planning | coding | qa_review | qa_fixing | complete | failed.
#[global] Instance eq_dec : EqDecision t.
Proof. solve_decision. Defined.
End ExecutionPhase.

(** A point in time, as the milliseconds of a JavaScript [Date]. *)
Definition Date := Z.

(** ** Chunks and plans *)

Module Chunk.
Record t := mk {
  id : string;
  title : string;
  description : string;
  status : ChunkStatus.t;
  files : list string;
  verification : option string
}.
End Chunk.

Module PlanChunk.
Record t := mk {
  id : string;
  description : string;
  status : ChunkStatus.t;
  verification : option string
}.
End PlanChunk.

Module PlanPhase.
Record t := mk { chunks : list PlanChunk.t }.
End PlanPhase.

Module ImplementationPlan.
Record t := mk {
  feature : option string;
  phases : list PlanPhase.t
}.
End ImplementationPlan.

(** ** Execution progress

    An [ExecutionProgress] object, and a [Partial<ExecutionProgress>]
    update, as the finite map of its own properties.  A property may be
    present and hold [undefined]; the numbers are the whole percentages
    that the worker reports. *)

Inductive PVal :=
  | PUndefined
  | PPhase (p : ExecutionPhase.t)
  | PNumber (n : Z)
  | PString (s : string).

#[global] Instance PVal_eq_dec : EqDecision PVal.
Proof. solve_decision. Defined.

Abbreviation Progress := (gmap string PVal).

(** [{ ...a, ...b }]: the properties of [b] win over those of [a]. *)
Definition spread (a b : Progress) : Progress := b ∪ a.

(** ** Tasks *)

Module TaskMetadata.
Record t := mk {
  sourceType : option string;
  category : option string;
  priority : option string;
  complexity : option string;
  impact : option string
}.
End TaskMetadata.

Module Task.
Record t := mk {
  id : string;
  specId : string;
  title : string;
  description : string;
  status : TaskStatus.t;
  reviewReason : option ReviewReason.t;
  chunks : option (list Chunk.t);
  executionProgress : option Progress;
  metadata : option TaskMetadata.t;
  logs : option (list string);
  createdAt : Date;
  updatedAt : Date
}.
End Task.

(** [Partial<Task>]: [None] is a property that the update does not carry.
    For the optional properties of a task the carried value may itself be
    [undefined]. *)
Module TaskPatch.
Record t := mk {
  id : option string;
  specId : option string;
  title : option string;
  description : option string;
  status : option TaskStatus.t;
  reviewReason : option (option ReviewReason.t);
  chunks : option (option (list Chunk.t));
  executionProgress : option (option Progress);
  metadata : option (option TaskMetadata.t);
  logs : option (option (list string));
  createdAt : option Date;
  updatedAt : option Date
}.

Definition empty : t :=
  mk None None None None None None None None None None None None.
End TaskPatch.

(** ** The store *)

Record TaskState := mkTaskState {
  tasks : list Task.t;
  selectedTaskId : option string;
  isLoading : bool;
  error : option string
}.

Definition initialState : TaskState := mkTaskState [] None false None.

(** [set({ tasks })] *)
Definition set_tasks (ts : list Task.t) (s : TaskState) : TaskState :=
  mkTaskState ts (selectedTaskId s) (isLoading s) (error s).

(** [a === b] on strings *)
Definition streq (a b : string) : bool := bool_decide (a = b).

(** [t.id === taskId || t.specId === taskId] *)
Definition matchesId (taskId : string) (t : Task.t) : bool :=
  streq (Task.id t) taskId || streq (Task.specId t) taskId.

(** [x || fallback] on a string that may be missing: the empty string is
    falsy. *)
Definition strOr (x : option string) (fallback : string) : string :=
  match x with
  | Some s => if streq s "" then fallback else s
  | None => fallback
  end.

Definition setTasks (ts : list Task.t) (s : TaskState) : TaskState :=
  set_tasks ts s.

Definition addTask (task : Task.t) (s : TaskState) : TaskState :=
  set_tasks (tasks s ++ [task])%list s.

(** [{ ...t, ...updates }] *)
Definition applyPatch (t : Task.t) (u : TaskPatch.t) : Task.t :=
  Task.mk
    (default (Task.id t) (TaskPatch.id u))
    (default (Task.specId t) (TaskPatch.specId u))
    (default (Task.title t) (TaskPatch.title u))
    (default (Task.description t) (TaskPatch.description u))
    (default (Task.status t) (TaskPatch.status u))
    (default (Task.reviewReason t) (TaskPatch.reviewReason u))
    (default (Task.chunks t) (TaskPatch.chunks u))
    (default (Task.executionProgress t) (TaskPatch.executionProgress u))
    (default (Task.metadata t) (TaskPatch.metadata u))
    (default (Task.logs t) (TaskPatch.logs u))
    (default (Task.createdAt t) (TaskPatch.createdAt u))
    (default (Task.updatedAt t) (TaskPatch.updatedAt u)).

Definition updateTask (taskId : string) (updates : TaskPatch.t)
    (s : TaskState) : TaskState :=
  set_tasks
    (map (fun t => if matchesId taskId t then applyPatch t updates else t)
         (tasks s)) s.

(** [{ ...t, status, updatedAt: new Date() }] *)
Definition withStatus (now : Date) (status : TaskStatus.t) (t : Task.t) : Task.t :=
  Task.mk (Task.id t) (Task.specId t) (Task.title t) (Task.description t)
    status (Task.reviewReason t) (Task.chunks t) (Task.executionProgress t)
    (Task.metadata t) (Task.logs t) (Task.createdAt t) now.

Definition updateTaskStatus (now : Date) (taskId : string)
    (status : TaskStatus.t) (s : TaskState) : TaskState :=
  set_tasks
    (map (fun t => if matchesId taskId t then withStatus now status t else t)
         (tasks s)) s.

(** The chunks of a plan, phase after phase ([flatMap]). *)
Definition chunkOfPlan (c : PlanChunk.t) : Chunk.t :=
  Chunk.mk (PlanChunk.id c) (PlanChunk.description c) (PlanChunk.description c)
    (PlanChunk.status c) [] (PlanChunk.verification c).

Definition planChunks (plan : ImplementationPlan.t) : list Chunk.t :=
  flat_map (fun phase => map chunkOfPlan (PlanPhase.chunks phase))
    (ImplementationPlan.phases plan).

Definition hasStatus (st : ChunkStatus.t) (c : Chunk.t) : bool :=
  bool_decide (Chunk.status c = st).

(** [t.metadata?.sourceType === 'manual'] *)
Definition isManual (t : Task.t) : bool :=
  match Task.metadata t with
  | Some m =>
      match TaskMetadata.sourceType m with
      | Some src => streq src "manual"
      | None => false
      end
  | None => false
  end.

(** The status and review reason that [updateTaskFromPlan] derives for a
    task from the chunks of the plan. *)
Definition deriveStatus (chunks : list Chunk.t) (t : Task.t)
    : TaskStatus.t * option ReviewReason.t :=
  let allCompleted :=
    (0 <? length chunks)%nat && forallb (hasStatus ChunkStatus.completed) chunks in
  let anyInProgress := existsb (hasStatus ChunkStatus.in_progress) chunks in
  let anyFailed := existsb (hasStatus ChunkStatus.failed) chunks in
  let anyCompleted := existsb (hasStatus ChunkStatus.completed) chunks in
  if allCompleted then
    (if isManual t then TaskStatus.human_review else TaskStatus.ai_review,
     if isManual t then Some ReviewReason.completed else None)
  else if anyFailed then
    (TaskStatus.human_review, Some ReviewReason.errors)
  else if anyInProgress || anyCompleted then
    (TaskStatus.in_progress, None)
  else
    (Task.status t, Task.reviewReason t).

(** What [updateTaskFromPlan] returns for a task that the identifier
    designates. *)
Definition withPlan (now : Date) (plan : ImplementationPlan.t) (t : Task.t) : Task.t :=
  let chunks := planChunks plan in
  let '(status, reviewReason) := deriveStatus chunks t in
  Task.mk (Task.id t) (Task.specId t)
    (strOr (ImplementationPlan.feature plan) (Task.title t))
    (Task.description t) status reviewReason (Some chunks)
    (Task.executionProgress t) (Task.metadata t) (Task.logs t)
    (Task.createdAt t) now.

(** The callback that [updateTaskFromPlan] maps over the tasks. *)
Definition planUpdate (now : Date) (taskId : string)
    (plan : ImplementationPlan.t) (t : Task.t) : Task.t :=
  if negb (streq (Task.id t) taskId) && negb (streq (Task.specId t) taskId)
  then t
  else withPlan now plan t.

Definition updateTaskFromPlan (now : Date) (taskId : string)
    (plan : ImplementationPlan.t) (s : TaskState) : TaskState :=
  set_tasks (map (planUpdate now taskId plan) (tasks s)) s.

(** [{ phase: 'idle', phaseProgress: 0, overallProgress: 0 }] *)
Definition idleProgress : Progress :=
  {[ "phase" := PPhase ExecutionPhase.idle;
     "phaseProgress" := PNumber 0;
     "overallProgress" := PNumber 0 ]}.

(** [t.executionProgress || { ... }] *)
Definition existingProgress (t : Task.t) : Progress :=
  default idleProgress (Task.executionProgress t).

(** What [updateExecutionProgress] returns for a task that the identifier
    designates. *)
Definition withProgress (now : Date) (progress : Progress) (t : Task.t) : Task.t :=
  Task.mk (Task.id t) (Task.specId t) (Task.title t) (Task.description t)
    (Task.status t) (Task.reviewReason t) (Task.chunks t)
    (Some (spread (existingProgress t) progress))
    (Task.metadata t) (Task.logs t) (Task.createdAt t) now.

(** The callback that [updateExecutionProgress] maps over the tasks. *)
Definition progressUpdate (now : Date) (taskId : string)
    (progress : Progress) (t : Task.t) : Task.t :=
  if negb (streq (Task.id t) taskId) && negb (streq (Task.specId t) taskId)
  then t
  else withProgress now progress t.

Definition updateExecutionProgress (now : Date) (taskId : string)
    (progress : Progress) (s : TaskState) : TaskState :=
  set_tasks (map (progressUpdate now taskId progress) (tasks s)) s.

(** [{ ...t, logs: [...(t.logs || []), log] }] *)
Definition withLog (log : string) (t : Task.t) : Task.t :=
  Task.mk (Task.id t) (Task.specId t) (Task.title t) (Task.description t)
    (Task.status t) (Task.reviewReason t) (Task.chunks t)
    (Task.executionProgress t) (Task.metadata t)
    (Some (default [] (Task.logs t) ++ [log])%list)
    (Task.createdAt t) (Task.updatedAt t).

Definition appendLog (taskId : string) (log : string) (s : TaskState) : TaskState :=
  set_tasks
    (map (fun t => if matchesId taskId t then withLog log t else t) (tasks s)) s.

Definition selectTask (taskId : option string) (s : TaskState) : TaskState :=
  mkTaskState (tasks s) taskId (isLoading s) (error s).

Definition clearTasks (s : TaskState) : TaskState :=
  mkTaskState [] None (isLoading s) (error s).

Definition getTasksByStatus (status : TaskStatus.t) (s : TaskState) : list Task.t :=
  filter (fun t => Task.status t = status) (tasks s).

(** ** Task state detection helpers *)

Definition isIncompleteHumanReview (task : Task.t) : bool :=
  if negb (bool_decide (Task.status task = TaskStatus.human_review)) then false
  else
    match Task.chunks task with
    | None => true
    | Some chunks =>
        if (length chunks =? 0)%nat then true
        else
          let completedChunks :=
            length (List.filter (hasStatus ChunkStatus.completed) chunks) in
          (completedChunks =? 0)%nat
    end.

Definition getCompletedChunkCount (task : Task.t) : nat :=
  match Task.chunks task with
  | None => 0%nat
  | Some chunks =>
      if (length chunks =? 0)%nat then 0%nat
      else length (List.filter (hasStatus ChunkStatus.completed) chunks)
  end.

(** The invariant of the data model on the review reason: it is defined
    only for a task in [human_review]. *)
Definition reviewReasonInv (t : Task.t) : Prop :=
  is_Some (Task.reviewReason t) -> Task.status t = TaskStatus.human_review.

(** The property path [t.metadata?.sourceType]. *)
Definition sourceType (t : Task.t) : option string :=
  Task.metadata t ≫= TaskMetadata.sourceType.



(** ** Calls over the IPC bridge *)

(** A JavaScript string whose characters matter, as its UTF-16 code units. *)
Definition jsstring := list N.

Module IPCResult.
Record t (A : Type) := mk {
  success : bool;
  data : option A;
  error : option string
}.
Arguments mk {A} _ _ _.
Arguments success {A} _.
Arguments data {A} _.
Arguments error {A} _.
End IPCResult.

(** What awaiting a call of [window.electronAPI] gives: the promise
    resolves with a result, or it rejects; a rejection with an [Error]
    carries its message. *)
Inductive IpcOutcome (A : Type) :=
  | Resolved (r : IPCResult.t A)
  | Rejected (errorMessage : option string).
Arguments Resolved {A} r.
Arguments Rejected {A} errorMessage.

(** [submitReview]: the answer of the control process, reached through
    [window.electronAPI.submitReview], decides; the store is updated on
    success only. *)
Definition submitReview
    (electronAPI_submitReview : string -> bool -> option jsstring -> IpcOutcome unit)
    (now : Date) (taskId : string) (approved : bool)
    (feedback : option jsstring) (s : TaskState) : bool * TaskState :=
  match electronAPI_submitReview taskId approved feedback with
  | Resolved result =>
      if IPCResult.success result then
        (true,
         updateTaskStatus now taskId
           (if approved then TaskStatus.done else TaskStatus.in_progress) s)
      else (false, s)
  | Rejected _ => (false, s)
  end.

Module RecoverOptions.
Record t := mk {
  targetStatus : option TaskStatus.t;
  autoRestart : option bool
}.
End RecoverOptions.

Module TaskRecoveryResult.
Record t := mk {
  newStatus : TaskStatus.t;
  message : string;
  autoRestarted : option bool
}.
End TaskRecoveryResult.

Module RecoverReply.
Record t := mk {
  success : bool;
  message : string;
  autoRestarted : option bool
}.
End RecoverReply.

(** The default of the [options] parameter: [{ autoRestart: true }]. *)
Definition defaultRecoverOptions : RecoverOptions.t :=
  RecoverOptions.mk None (Some true).

Section Renderer.
(** The state on the other side of the bridge, and the handler that
    [window.electronAPI.recoverStuckTask] reaches. *)
Context {W : Type}.
Variable electronAPI_recoverStuckTask :
  string -> RecoverOptions.t -> W -> IpcOutcome TaskRecoveryResult.t * W.

Definition recoverStuckTask (now : Date) (taskId : string)
    (options : option RecoverOptions.t) (sw : TaskState * W)
    : RecoverReply.t * (TaskState * W) :=
  let options := default defaultRecoverOptions options in
  let '(s, w) := sw in
  let '(outcome, w') := electronAPI_recoverStuckTask taskId options w in
  match outcome with
  | Resolved result =>
      match IPCResult.success result, IPCResult.data result with
      | true, Some data =>
          (RecoverReply.mk true (TaskRecoveryResult.message data)
             (TaskRecoveryResult.autoRestarted data),
           (updateTaskStatus now taskId (TaskRecoveryResult.newStatus data) s, w'))
      | _, _ =>
          (RecoverReply.mk false
             (strOr (IPCResult.error result) "Failed to recover task") None,
           (s, w'))
      end
  | Rejected msg =>
      (RecoverReply.mk false (default "Unknown error" msg) None, (s, w'))
  end.
End Renderer.

(** ** The control process behind the bridge *)

(** Modelled from the spec: what the control process keeps for recovery,
    the recorded status of each task and the start operations it has
    invoked on the worker collaborator, oldest first. *)
Record Control := mkControl {
  recorded : gmap string TaskStatus.t;
  startLog : list string
}.

Section ControlProcess.
(** The status a task is reset to when the caller names none, and the
    answer for a task whose worker is alive; the specification fixes
    neither. *)
Variable naturalNext : TaskStatus.t -> TaskStatus.t.
Variable whenLive :
  string -> RecoverOptions.t -> Control -> IpcOutcome TaskRecoveryResult.t * Control.

(** Modelled from the spec: the handler of the control process that
    [window.electronAPI.recoverStuckTask] reaches is not among the
    sources.  [running] is the answer of the worker collaborator's
    [checkRunning] at the time of the call.  A missing task is a no-op
    with a reported failure.  With no process running, the recorded
    status is reset to the target status (by default the task's natural
    next status), the start operation is re-invoked if [autoRestart] is
    true, and the recovery succeeds whatever becomes of the restart. *)
Definition control_recoverStuckTask (running : bool) (taskId : string)
    (opts : RecoverOptions.t) (c : Control)
    : IpcOutcome TaskRecoveryResult.t * Control :=
  match recorded c !! taskId with
  | None => (Resolved (IPCResult.mk false None (Some "Task not found")), c)
  | Some st =>
      if running then whenLive taskId opts c
      else
        let newStatus := default (naturalNext st) (RecoverOptions.targetStatus opts) in
        let restart := bool_decide (RecoverOptions.autoRestart opts = Some true) in
        (Resolved
           (IPCResult.mk true
              (Some (TaskRecoveryResult.mk newStatus "Task recovered" (Some restart)))
              None),
         mkControl (<[taskId := newStatus]> (recorded c))
           (if restart then (startLog c ++ [taskId])%list else startLog c))
  end.
End ControlProcess.

(** Number of times the start operation was invoked for a task. *)
Definition startCount (taskId : string) (c : Control) : nat :=
  length (List.filter (fun x => streq x taskId) (startLog c)).

(** The call asks for a restart in so many words: it passes options whose
    [autoRestart] is [true]. *)
Definition explicitlyRequested (options : option RecoverOptions.t) : Prop :=
  exists opts, options = Some opts /\ RecoverOptions.autoRestart opts = Some true.

(** [autoRestart] is in effect: asked for in so many words, or through the
    default that applies when the options are omitted. *)
Definition restartInEffect (options : option RecoverOptions.t) : bool :=
  bool_decide
    (RecoverOptions.autoRestart (default defaultRecoverOptions options) = Some true).

(** ** The review handlers of the task detail panel *)

(** White space and line terminators of ECMAScript, which [trim] strips. *)
Definition isWhiteSpace (c : N) : bool :=
  ((9 <=? c) && (c <=? 13) || (c =? 32) || (c =? 160) || (c =? 5760)
   || (8192 <=? c) && (c <=? 8202) || (c =? 8232) || (c =? 8233)
   || (c =? 8239) || (c =? 8287) || (c =? 12288) || (c =? 65279))%N.

Fixpoint trimStart (s : jsstring) : jsstring :=
  match s with
  | [] => []
  | c :: rest => if isWhiteSpace c then trimStart rest else s
  end.

Definition trimEnd (s : jsstring) : jsstring := rev (trimStart (rev s)).

Definition trim (s : jsstring) : jsstring := trimEnd (trimStart s).

(** Truthiness of a string: it is not empty. *)
Definition truthy (s : jsstring) : bool := negb (length s =? 0)%nat.

Module Panel.
Record State := mkState {
  feedback : jsstring;
  isSubmitting : bool
}.

(** What a handler does, in order: state setters of the component, the
    call of the store's [submitReview], the [onClose] callback. *)
Inductive Effect :=
  | SetIsSubmitting (b : bool)
  | SetFeedback (s : jsstring)
  | SubmitReview (taskId : string) (approved : bool) (feedback : option jsstring)
  | OnClose.

Definition handleApprove (task : Task.t) (st : State) : list Effect :=
  [SetIsSubmitting true; SubmitReview (Task.id task) true None;
   SetIsSubmitting false; OnClose].

Definition handleReject (task : Task.t) (st : State) : list Effect :=
  if negb (truthy (trim (feedback st))) then []
  else
    [SetIsSubmitting true;
     SubmitReview (Task.id task) false (Some (feedback st));
     SetIsSubmitting false; SetFeedback []].

(** [disabled={isSubmitting || !feedback.trim()}] of the reject button *)
Definition rejectDisabled (st : State) : bool :=
  isSubmitting st || negb (truthy (trim (feedback st))).

Definition callsSubmitReview (e : Effect) : bool :=
  match e with SubmitReview _ _ _ => true | _ => false end.
End Panel.

(** ** The store operations that rewrite tasks *)

(** The five operations of the store that take an identifier and rewrite
    tasks, with their arguments. *)
Inductive Mutation :=
  | UpdateTask (taskId : string) (updates : TaskPatch.t)
  | UpdateTaskStatus (now : Date) (taskId : string) (status : TaskStatus.t)
  | UpdateTaskFromPlan (now : Date) (taskId : string) (plan : ImplementationPlan.t)
  | UpdateExecutionProgress (now : Date) (taskId : string) (progress : Progress)
  | AppendLog (taskId : string) (log : string).

Definition target (m : Mutation) : string :=
  match m with
  | UpdateTask taskId _ | UpdateTaskStatus _ taskId _
  | UpdateTaskFromPlan _ taskId _ | UpdateExecutionProgress _ taskId _
  | AppendLog taskId _ => taskId
  end.

Definition run (m : Mutation) (s : TaskState) : TaskState :=
  match m with
  | UpdateTask taskId updates => updateTask taskId updates s
  | UpdateTaskStatus now taskId status => updateTaskStatus now taskId status s
  | UpdateTaskFromPlan now taskId plan => updateTaskFromPlan now taskId plan s
  | UpdateExecutionProgress now taskId progress =>
      updateExecutionProgress now taskId progress s
  | AppendLog taskId log => appendLog taskId log s
  end.

(** The object that the operation builds for a task it designates. *)
Definition rewritten (m : Mutation) (t : Task.t) : Task.t :=
  match m with
  | UpdateTask _ updates => applyPatch t updates
  | UpdateTaskStatus now _ status => withStatus now status t
  | UpdateTaskFromPlan now _ plan => withPlan now plan t
  | UpdateExecutionProgress now _ progress => withProgress now progress t
  | AppendLog _ log => withLog log t
  end.

(** ** Sample data *)

(** Sample data: a plan of three chunks and a store of two tasks. *)
Definition samplePlan (a b c : ChunkStatus.t) : ImplementationPlan.t :=
  ImplementationPlan.mk (Some "Feature")
    [PlanPhase.mk [PlanChunk.mk "c1" "first" a None; PlanChunk.mk "c2" "second" b None];
     PlanPhase.mk [PlanChunk.mk "c3" "third" c None]].

Definition sampleTask (id specId : string) (status : TaskStatus.t)
    (reason : option ReviewReason.t) (src : option string) : Task.t :=
  Task.mk id specId "A task" "" status reason None None
    (Some (TaskMetadata.mk src None None None None)) None 0 0.

Definition sampleStore : TaskState :=
  mkTaskState
    [sampleTask "t1" "001-first" TaskStatus.in_progress None (Some "manual");
     sampleTask "t2" "002-second" TaskStatus.backlog None (Some "ideation")]
    None false None.

(** Sample data: a task half way through the coding phase. *)
Definition codingProgress : Progress :=
  {[ "phase" := PPhase ExecutionPhase.coding;
     "phaseProgress" := PNumber 50;
     "overallProgress" := PNumber 50 ]}.

Definition codingTask : Task.t :=
  Task.mk "t1" "001-first" "A task" "" TaskStatus.in_progress None None
    (Some codingProgress) None None 0 0.

Definition codingStore : TaskState := mkTaskState [codingTask] None false None.

(** Sample data: a manual task that completed and awaits human review. *)
Definition reviewedTask : Task.t :=
  sampleTask "t1" "001-first" TaskStatus.human_review
    (Some ReviewReason.completed) (Some "manual").

Definition reviewStore : TaskState := mkTaskState [reviewedTask] None false None.

(** A control process that accepts every review. *)
Definition acceptReview (taskId : string) (approved : bool)
    (feedback : option jsstring) : IpcOutcome unit :=
  Resolved (IPCResult.mk true None None).

(** Sample data: the control process records [t1] as [in_progress] and has
    started no worker. *)
Definition stuckControl : Control :=
  mkControl {[ "t1" := TaskStatus.in_progress ]} [].

Definition keepStatus (st : TaskStatus.t) : TaskStatus.t := st.

Definition refuseLive (taskId : string) (opts : RecoverOptions.t) (c : Control)
    : IpcOutcome TaskRecoveryResult.t * Control :=
  (Resolved (IPCResult.mk false None (Some "Task is still running")), c).

(** ** The rest of the store *)


Definition setError (e : option string) (s : TaskState) : TaskState :=
  mkTaskState (tasks s) (selectedTaskId s) (isLoading s) e.

(** [state.tasks.find((t) => t.id === state.selectedTaskId)]: no task
    equals a [null] selection. *)
Definition getSelectedTask (s : TaskState) : option Task.t :=
  List.find
    (fun t =>
       match selectedTaskId s with
       | Some sel => streq (Task.id t) sel
       | None => false
       end)
    (tasks s).

(** ** The functions that call the control process *)


Definition createTask
    (electronAPI_createTask :
       string -> string -> string -> option TaskMetadata.t -> IpcOutcome Task.t)
    (projectId title description : string) (metadata : option TaskMetadata.t)
    (s : TaskState) : option Task.t * TaskState :=
  match electronAPI_createTask projectId title description metadata with
  | Resolved result =>
      match IPCResult.success result, IPCResult.data result with
      | true, Some data => (Some data, addTask data s)
      | _, _ =>
          (None,
           setError (Some (strOr (IPCResult.error result) "Failed to create task")) s)
      end
  | Rejected msg => (None, setError (Some (default "Unknown error" msg)) s)
  end.

(** [persistTaskStatus]: the store is updated first, then the control
    process is asked to persist. *)
Definition persistTaskStatus
    (electronAPI_updateTaskStatus : string -> TaskStatus.t -> IpcOutcome unit)
    (now : Date) (taskId : string) (status : TaskStatus.t) (s : TaskState)
    : bool * TaskState :=
  let s' := updateTaskStatus now taskId status s in
  match electronAPI_updateTaskStatus taskId status with
  | Resolved result =>
      if negb (IPCResult.success result) then (false, s') else (true, s')
  | Rejected _ => (false, s')
  end.

(** The argument [{ title?: string; description?: string }] of
    [persistUpdateTask]. *)
Module TaskEdit.
Record t := mk {
  title : option string;
  description : option string
}.
End TaskEdit.

Definition persistUpdateTask
    (electronAPI_updateTask : string -> TaskEdit.t -> IpcOutcome Task.t)
    (now : Date) (taskId : string) (updates : TaskEdit.t) (s : TaskState)
    : bool * TaskState :=
  match electronAPI_updateTask taskId updates with
  | Resolved result =>
      match IPCResult.success result, IPCResult.data result with
      | true, Some data =>
          (true,
           updateTask taskId
             (TaskPatch.mk None None (Some (Task.title data))
                (Some (Task.description data)) None None None None None None
                None (Some now)) s)
      | _, _ => (false, s)
      end
  | Rejected _ => (false, s)
  end.

(** [result.success && result.data === true] *)
Definition checkTaskRunning
    (electronAPI_checkTaskRunning : string -> IpcOutcome bool)
    (taskId : string) : bool :=
  match electronAPI_checkTaskRunning taskId with
  | Resolved result =>
      IPCResult.success result && bool_decide (IPCResult.data result = Some true)
  | Rejected _ => false
  end.

Module DeleteReply.
Record t := mk {
  success : bool;
  error : option string
}.
End DeleteReply.

(** [deleteTask]: [store] is the state that [getState()] returned when the
    function was entered, [s] the state of the store when the answer
    arrives.  The tasks that are kept are read from [store]; so is the
    selection that is compared with the identifier. *)
Definition deleteTask
    (electronAPI_deleteTask : string -> IpcOutcome unit)
    (taskId : string) (store s : TaskState) : DeleteReply.t * TaskState :=
  match electronAPI_deleteTask taskId with
  | Resolved result =>
      if IPCResult.success result then
        let s1 :=
          setTasks
            (List.filter
               (fun t => negb (streq (Task.id t) taskId)
                         && negb (streq (Task.specId t) taskId))
               (tasks store)) s in
        let s2 :=
          if bool_decide (selectedTaskId store = Some taskId)
          then selectTask None s1 else s1 in
        (DeleteReply.mk true None, s2)
      else
        (DeleteReply.mk false
           (Some (strOr (IPCResult.error result) "Failed to delete task")), s)
  | Rejected msg =>
      (DeleteReply.mk false (Some (default "Unknown error" msg)), s)
  end.

(** ** Task creation drafts *)

Definition DRAFT_KEY_PREFIX : string := "task-creation-draft".

(** [`${DRAFT_KEY_PREFIX}-${projectId}`] *)
Definition getDraftKey (projectId : string) : string :=
  DRAFT_KEY_PREFIX ++ "-" ++ projectId.

Module ImageAttachment.
Record t := mk {
  id : string;
  filename : string;
  mimeType : string;
  size : Z;
  data : option string;
  thumbnail : option string
}.
End ImageAttachment.

(** A draft of the task creation form.  The classification fields hold a
    value, the empty string, or nothing. *)
Module TaskDraft.
Record t := mk {
  projectId : string;
  title : jsstring;
  description : jsstring;
  category : option string;
  priority : option string;
  complexity : option string;
  impact : option string;
  images : list ImageAttachment.t;
  savedAt : Date
}.
End TaskDraft.

(** Truthiness of a string that may be missing. *)
Definition truthyStr (x : option string) : bool :=
  match x with
  | Some s => negb (streq s "")
  | None => false
  end.

(** [{ ...img, data: undefined }] *)
Definition withoutData (img : ImageAttachment.t) : ImageAttachment.t :=
  ImageAttachment.mk (ImageAttachment.id img) (ImageAttachment.filename img)
    (ImageAttachment.mimeType img) (ImageAttachment.size img) None
    (ImageAttachment.thumbnail img).

(** [draftToStore] of [saveDraft]. *)
Definition draftToStore (now : Date) (draft : TaskDraft.t) : TaskDraft.t :=
  TaskDraft.mk (TaskDraft.projectId draft) (TaskDraft.title draft)
    (TaskDraft.description draft) (TaskDraft.category draft)
    (TaskDraft.priority draft) (TaskDraft.complexity draft)
    (TaskDraft.impact draft) (map withoutData (TaskDraft.images draft)) now.

Section DraftStorage.
(** [JSON.stringify] of a draft with its date as an ISO string, and
    [JSON.parse] followed by the conversion of the date; parsing may
    throw. *)
Variable stringify : TaskDraft.t -> string.
Variable parseDraft : string -> option TaskDraft.t.

(** [localStorage] is a map from keys to strings; [accepted] tells whether
    [setItem] stores the item or throws (the quota is exceeded), which
    [saveDraft] catches. *)
Definition saveDraft (now : Date) (accepted : bool) (draft : TaskDraft.t)
    (localStorage : gmap string string) : gmap string string :=
  let key := getDraftKey (TaskDraft.projectId draft) in
  if accepted then <[key := stringify (draftToStore now draft)]> localStorage
  else localStorage.

Definition loadDraft (projectId : string) (localStorage : gmap string string)
    : option TaskDraft.t :=
  let key := getDraftKey projectId in
  match localStorage !! key with
  | None => None
  | Some stored => if streq stored "" then None else parseDraft stored
  end.
End DraftStorage.

Definition clearDraft (projectId : string) (localStorage : gmap string string)
    : gmap string string :=
  delete (getDraftKey projectId) localStorage.

(** [localStorage.getItem(key) !== null] *)
Definition hasDraft (projectId : string) (localStorage : gmap string string) : bool :=
  bool_decide (is_Some (localStorage !! getDraftKey projectId)).

Definition isDraftEmpty (draft : option TaskDraft.t) : bool :=
  match draft with
  | None => true
  | Some draft =>
      negb (truthy (trim (TaskDraft.title draft)))
      && negb (truthy (trim (TaskDraft.description draft)))
      && (length (TaskDraft.images draft) =? 0)%nat
      && negb (truthyStr (TaskDraft.category draft))
      && negb (truthyStr (TaskDraft.priority draft))
      && negb (truthyStr (TaskDraft.complexity draft))
      && negb (truthyStr (TaskDraft.impact draft))
  end.

(** ** The action button and the log phases of the task detail panel *)

Module Worker.
(** The fire-and-forget calls [startTask] and [stopTask] of the store. *)
Inductive Call :=
  | StartTask (taskId : string)
  | StopTask (taskId : string).
End Worker.

(** [handleStartStop]: [isRunning] is [task.status === 'in_progress']. *)
Definition handleStartStop (task : Task.t) (isStuck : bool) : Worker.Call :=
  let isRunning := bool_decide (Task.status task = TaskStatus.in_progress) in
  if isRunning && negb isStuck then Worker.StopTask (Task.id task)
  else Worker.StartTask (Task.id task).

(** The button of the actions area, by its label. *)
Inductive ActionButton :=
  | RecoverTaskButton
  | ResumeTaskButton
  | StopTaskButton
  | StartTaskButton
  | NoActionButton.

Definition actionButton (task : Task.t) (isStuck : bool) : ActionButton :=
  let isRunning := bool_decide (Task.status task = TaskStatus.in_progress) in
  if isStuck then RecoverTaskButton
  else if isIncompleteHumanReview task then ResumeTaskButton
  else if bool_decide (Task.status task = TaskStatus.backlog)
          || bool_decide (Task.status task = TaskStatus.in_progress)
  then (if isRunning then StopTaskButton else StartTaskButton)
  else NoActionButton.

Module TaskLogPhase.
Inductive t := planning | coding | validation.
#[global] Instance eq_dec : EqDecision t.
Proof. solve_decision. Defined.
Definition encode (p : t) : nat :=
  match p with planning => 0 | coding => 1 | validation => 2 end%nat.
Definition decode (n : nat) : t :=
  match n with O => planning | S O => coding | _ => validation end.
#[global] Instance countable : Countable t.
Proof. apply (inj_countable' encode decode). intros []; reflexivity. Defined.
End TaskLogPhase.

Module PhaseStatus.
Inductive t := pending | active | completed | failed.
#[global] Instance eq_dec : EqDecision t.
Proof. solve_decision. Defined.
End PhaseStatus.

Module TaskLogEntry.
Record t := mk {
  timestamp : string;
  type : string;
  tool_name : option string;
  tool_input : option string;
  content : option string
}.
End TaskLogEntry.

Module TaskPhaseLog.
Record t := mk {
  status : PhaseStatus.t;
  entries : list TaskLogEntry.t
}.
End TaskPhaseLog.

(** [TaskLogs]: the log of each phase, which may be missing. *)
Module TaskLogs.
Record t := mk {
  planning : option TaskPhaseLog.t;
  coding : option TaskPhaseLog.t;
  validation : option TaskPhaseLog.t
}.
End TaskLogs.

(** [logs.phases[phase]] *)
Definition phaseLog (logs : TaskLogs.t) (phase : TaskLogPhase.t)
    : option TaskPhaseLog.t :=
  match phase with
  | TaskLogPhase.planning => TaskLogs.planning logs
  | TaskLogPhase.coding => TaskLogs.coding logs
  | TaskLogPhase.validation => TaskLogs.validation logs
  end.

(** [logs.phases[phase]?.status === 'active'] *)
Definition isActivePhase (logs : TaskLogs.t) (phase : TaskLogPhase.t) : bool :=
  match phaseLog logs phase with
  | Some pl => bool_decide (TaskPhaseLog.status pl = PhaseStatus.active)
  | None => false
  end.

(** [['planning', 'coding', 'validation'].find(...)] *)
Definition activePhase (logs : TaskLogs.t) : option TaskLogPhase.t :=
  List.find (isActivePhase logs)
    [TaskLogPhase.planning; TaskLogPhase.coding; TaskLogPhase.validation].

Module LogView.
Record t := mk {
  phaseLogs : option TaskLogs.t;
  isLoadingLogs : bool;
  expandedPhases : gset TaskLogPhase.t
}.
End LogView.

(** [loadLogs]: the answer of [getTaskLogs] is stored and the active phase
    becomes the only expanded one. *)
Definition loadLogs (outcome : IpcOutcome TaskLogs.t) (v : LogView.t) : LogView.t :=
  match outcome with
  | Resolved result =>
      match IPCResult.success result, IPCResult.data result with
      | true, Some data =>
          LogView.mk (Some data) false
            (match activePhase data with
             | Some phase => {[ phase ]}
             | None => LogView.expandedPhases v
             end)
      | _, _ => LogView.mk (LogView.phaseLogs v) false (LogView.expandedPhases v)
      end
  | Rejected _ => LogView.mk (LogView.phaseLogs v) false (LogView.expandedPhases v)
  end.

(** The listener given to [onTaskLogsChanged]. *)
Definition onTaskLogsChanged (task : Task.t) (specId : string)
    (logs : TaskLogs.t) (v : LogView.t) : LogView.t :=
  if streq specId (Task.specId task) then
    LogView.mk (Some logs) (LogView.isLoadingLogs v)
      (match activePhase logs with
       | Some phase => LogView.expandedPhases v ∪ {[ phase ]}
       | None => LogView.expandedPhases v
       end)
  else v.

Definition togglePhase (phase : TaskLogPhase.t) (v : LogView.t) : LogView.t :=
  LogView.mk (LogView.phaseLogs v) (LogView.isLoadingLogs v)
    (if bool_decide (phase ∈ LogView.expandedPhases v)
     then LogView.expandedPhases v ∖ {[ phase ]}
     else LogView.expandedPhases v ∪ {[ phase ]}).

(** Sample answers of the control process. *)
Definition answerOk {A : Type} (data : option A) : IpcOutcome A :=
  Resolved (IPCResult.mk true data None).

Definition answerError {A : Type} (message : string) : IpcOutcome A :=
  Resolved (IPCResult.mk false None (Some message)).

(** A draft with a title, a description and one image. *)
Definition sampleDraft : TaskDraft.t :=
  TaskDraft.mk "p1" [70; 105; 120]%N [32]%N (Some "bug_fix") None None (Some "")
    [ImageAttachment.mk "i1" "shot.png" "image/png" 2048 (Some "AAAA") (Some "aa")] 0.

(** * Properties *)

(** ** Lists of tasks rewritten by [map] *)

Lemma lookup_map {A B : Type} (f : A -> B) (l : list A) (i : nat) :
  map f l !! i = f <$> (l !! i).
Proof.
  revert i. induction l as [|a l IH]; intros [|i]; simpl; auto.
Qed.

Lemma guard_matchesId (taskId : string) (t : Task.t) :
  negb (streq (Task.id t) taskId) && negb (streq (Task.specId t) taskId)
  = negb (matchesId taskId t).
Proof.
  unfold matchesId.
  destruct (streq (Task.id t) taskId), (streq (Task.specId t) taskId); reflexivity.
Qed.

Lemma streq_true (a b : string) : streq a b = true <-> a = b.
Proof. unfold streq. apply bool_decide_eq_true. Qed.

Lemma matchesId_spec (taskId : string) (t : Task.t) :
  matchesId taskId t = true <-> Task.id t = taskId \/ Task.specId t = taskId.
Proof.
  unfold matchesId. rewrite orb_true_iff, !streq_true. reflexivity.
Qed.

Lemma hasStatus_true (st : ChunkStatus.t) (c : Chunk.t) :
  hasStatus st c = true <-> Chunk.status c = st.
Proof. unfold hasStatus. apply bool_decide_eq_true. Qed.

Lemma hasStatus_other (st st' : ChunkStatus.t) (c : Chunk.t) :
  Chunk.status c = st -> st <> st' -> hasStatus st' c = false.
Proof.
  intros Hc Hne. unfold hasStatus. apply bool_decide_eq_false. congruence.
Qed.

(** ** The flags computed from the chunks *)

Lemma forallb_hasStatus (st : ChunkStatus.t) (chunks : list Chunk.t) :
  forallb (hasStatus st) chunks = true
  <-> Forall (fun c => Chunk.status c = st) chunks.
Proof.
  induction chunks as [|c chunks IH]; simpl.
  - split; [constructor | reflexivity].
  - rewrite andb_true_iff, IH, hasStatus_true. split.
    + intros [Hc Hall]. constructor; assumption.
    + intros Hall. inversion Hall as [|? ? Hc Hrest]. split; assumption.
Qed.

Lemma existsb_hasStatus (st : ChunkStatus.t) (chunks : list Chunk.t) :
  existsb (hasStatus st) chunks = true
  <-> Exists (fun c => Chunk.status c = st) chunks.
Proof.
  induction chunks as [|c chunks IH]; simpl.
  - split; [discriminate | intros H; inversion H].
  - rewrite orb_true_iff, IH, hasStatus_true. split.
    + intros [Hc | Hex]; [left | right]; assumption.
    + intros Hex. inversion Hex as [? ? Hc | ? ? Hrest]; [left | right]; assumption.
Qed.

Lemma existsb_none_of (st st' : ChunkStatus.t) (chunks : list Chunk.t) :
  Forall (fun c => Chunk.status c = st) chunks -> st <> st' ->
  existsb (hasStatus st') chunks = false.
Proof.
  intros Hall Hne. induction Hall as [|c chunks Hc _ IH]; simpl.
  - reflexivity.
  - rewrite (hasStatus_other st st' c Hc Hne), IH. reflexivity.
Qed.

Lemma forallb_broken_by (st st' : ChunkStatus.t) (chunks : list Chunk.t) :
  Exists (fun c => Chunk.status c = st) chunks -> st <> st' ->
  forallb (hasStatus st') chunks = false.
Proof.
  intros Hex Hne. induction Hex as [c chunks Hc | c chunks _ IH]; simpl.
  - rewrite (hasStatus_other st st' c Hc Hne). reflexivity.
  - rewrite IH. apply andb_false_r.
Qed.

Lemma isManual_true (t : Task.t) :
  isManual t = true <-> sourceType t = Some "manual".
Proof.
  unfold isManual, sourceType.
  destruct (Task.metadata t) as [m|]; simpl; [|split; discriminate].
  destruct (TaskMetadata.sourceType m) as [src|]; [|split; discriminate].
  rewrite streq_true. split; congruence.
Qed.

(** ** The status derived from the chunks *)

Lemma deriveStatus_all_completed (chunks : list Chunk.t) (t : Task.t) :
  chunks <> [] ->
  Forall (fun c => Chunk.status c = ChunkStatus.completed) chunks ->
  deriveStatus chunks t =
    (if isManual t then TaskStatus.human_review else TaskStatus.ai_review,
     if isManual t then Some ReviewReason.completed else None).
Proof.
  intros Hne Hall. unfold deriveStatus.
  apply forallb_hasStatus in Hall. rewrite Hall.
  destruct chunks as [|c chunks]; [congruence | reflexivity].
Qed.

Lemma deriveStatus_failed (chunks : list Chunk.t) (t : Task.t) :
  Exists (fun c => Chunk.status c = ChunkStatus.failed) chunks ->
  deriveStatus chunks t = (TaskStatus.human_review, Some ReviewReason.errors).
Proof.
  intros Hex. unfold deriveStatus.
  rewrite (forallb_broken_by ChunkStatus.failed ChunkStatus.completed chunks Hex)
    by discriminate.
  rewrite andb_false_r.
  apply existsb_hasStatus in Hex. rewrite Hex. reflexivity.
Qed.

Lemma deriveStatus_all_pending (chunks : list Chunk.t) (t : Task.t) :
  Forall (fun c => Chunk.status c = ChunkStatus.pending) chunks ->
  deriveStatus chunks t = (Task.status t, Task.reviewReason t).
Proof.
  intros Hall. unfold deriveStatus.
  rewrite !(existsb_none_of ChunkStatus.pending _ chunks Hall) by discriminate.
  destruct chunks as [|c chunks]; [reflexivity|].
  inversion Hall as [|? ? Hc Hrest]. simpl.
  rewrite (hasStatus_other _ ChunkStatus.completed c Hc) by discriminate.
  reflexivity.
Qed.

(** The task that [updateTaskFromPlan] leaves at a position that held a
    matching task. *)
Lemma updateTaskFromPlan_lookup (now : Date) (taskId : string)
    (plan : ImplementationPlan.t) (s : TaskState) (i : nat) (t : Task.t) :
  tasks s !! i = Some t ->
  matchesId taskId t = true ->
  tasks (updateTaskFromPlan now taskId plan s) !! i =
    Some (Task.mk (Task.id t) (Task.specId t)
            (strOr (ImplementationPlan.feature plan) (Task.title t))
            (Task.description t)
            (fst (deriveStatus (planChunks plan) t))
            (snd (deriveStatus (planChunks plan) t))
            (Some (planChunks plan))
            (Task.executionProgress t) (Task.metadata t) (Task.logs t)
            (Task.createdAt t) now).
Proof.
  intros Hi Hm. unfold updateTaskFromPlan. simpl.
  rewrite lookup_map, Hi. simpl. f_equal.
  unfold planUpdate. rewrite guard_matchesId, Hm. simpl.
  unfold withPlan.
  destruct (deriveStatus (planChunks plan) t) as [st rr]. reflexivity.
Qed.

(** C1: when the plan has at least one chunk and every chunk is
    [completed], [updateTaskFromPlan] puts a matching task in
    [human_review] with reason [completed] if its [metadata.sourceType] is
    [manual], and in [ai_review] with no reason otherwise. *)
Theorem updateTaskFromPlan_all_completed (now : Date) (taskId : string)
    (plan : ImplementationPlan.t) (s : TaskState) (i : nat) (t : Task.t) :
  tasks s !! i = Some t ->
  matchesId taskId t = true ->
  planChunks plan <> [] ->
  Forall (fun c => Chunk.status c = ChunkStatus.completed) (planChunks plan) ->
  exists t', tasks (updateTaskFromPlan now taskId plan s) !! i = Some t' /\
    (sourceType t = Some "manual" ->
       Task.status t' = TaskStatus.human_review /\
       Task.reviewReason t' = Some ReviewReason.completed) /\
    (sourceType t <> Some "manual" ->
       Task.status t' = TaskStatus.ai_review /\
       Task.reviewReason t' = None).
Proof.
  intros Hi Hm Hne Hall.
  eexists. split; [apply (updateTaskFromPlan_lookup now taskId plan s i t Hi Hm)|].
  rewrite (deriveStatus_all_completed _ t Hne Hall). simpl.
  split; intros Hsrc.
  - apply isManual_true in Hsrc. rewrite Hsrc. split; reflexivity.
  - destruct (isManual t) eqn:E.
    + apply isManual_true in E. contradiction.
    + split; reflexivity.
Qed.

Lemma updateTaskFromPlan_all_completed_witness :
  exists t',
    tasks (updateTaskFromPlan 7 "t1"
             (samplePlan ChunkStatus.completed ChunkStatus.completed ChunkStatus.completed)
             sampleStore) !! 0%nat = Some t' /\
    (sourceType (sampleTask "t1" "001-first" TaskStatus.in_progress None (Some "manual"))
       = Some "manual" ->
       Task.status t' = TaskStatus.human_review /\
       Task.reviewReason t' = Some ReviewReason.completed) /\
    (sourceType (sampleTask "t1" "001-first" TaskStatus.in_progress None (Some "manual"))
       <> Some "manual" ->
       Task.status t' = TaskStatus.ai_review /\
       Task.reviewReason t' = None).
Proof.
  apply (updateTaskFromPlan_all_completed 7 "t1"
           (samplePlan ChunkStatus.completed ChunkStatus.completed ChunkStatus.completed)
           sampleStore 0%nat
           (sampleTask "t1" "001-first" TaskStatus.in_progress None (Some "manual"))).
  - reflexivity.
  - reflexivity.
  - vm_compute. discriminate.
  - vm_compute. repeat constructor.
Defined.

(** C2: when at least one chunk of the plan is [failed] (so that not every
    chunk is [completed]), [updateTaskFromPlan] puts a matching task in
    [human_review] with reason [errors], whatever the other chunks are. *)
Theorem updateTaskFromPlan_any_failed (now : Date) (taskId : string)
    (plan : ImplementationPlan.t) (s : TaskState) (i : nat) (t : Task.t) :
  tasks s !! i = Some t ->
  matchesId taskId t = true ->
  Exists (fun c => Chunk.status c = ChunkStatus.failed) (planChunks plan) ->
  ~ Forall (fun c => Chunk.status c = ChunkStatus.completed) (planChunks plan) ->
  exists t', tasks (updateTaskFromPlan now taskId plan s) !! i = Some t' /\
    Task.status t' = TaskStatus.human_review /\
    Task.reviewReason t' = Some ReviewReason.errors.
Proof.
  intros Hi Hm Hex _.
  eexists. split; [apply (updateTaskFromPlan_lookup now taskId plan s i t Hi Hm)|].
  rewrite (deriveStatus_failed _ t Hex). split; reflexivity.
Qed.

Lemma updateTaskFromPlan_any_failed_witness :
  exists t',
    tasks (updateTaskFromPlan 7 "002-second"
             (samplePlan ChunkStatus.completed ChunkStatus.failed ChunkStatus.in_progress)
             sampleStore) !! 1%nat = Some t' /\
    Task.status t' = TaskStatus.human_review /\
    Task.reviewReason t' = Some ReviewReason.errors.
Proof.
  apply (updateTaskFromPlan_any_failed 7 "002-second"
           (samplePlan ChunkStatus.completed ChunkStatus.failed ChunkStatus.in_progress)
           sampleStore 1%nat
           (sampleTask "t2" "002-second" TaskStatus.backlog None (Some "ideation"))).
  - reflexivity.
  - reflexivity.
  - vm_compute. right. left. reflexivity.
  - vm_compute. intros H. inversion H as [|? ? _ H2]. inversion H2. discriminate.
Defined.

(** C3: when the plan has no chunk, or every chunk is [pending],
    [updateTaskFromPlan] leaves the status of a matching task (and its
    review reason) as it was. *)
Theorem updateTaskFromPlan_nothing_started (now : Date) (taskId : string)
    (plan : ImplementationPlan.t) (s : TaskState) (i : nat) (t : Task.t) :
  tasks s !! i = Some t ->
  matchesId taskId t = true ->
  planChunks plan = [] \/
    Forall (fun c => Chunk.status c = ChunkStatus.pending) (planChunks plan) ->
  exists t', tasks (updateTaskFromPlan now taskId plan s) !! i = Some t' /\
    Task.status t' = Task.status t /\
    Task.reviewReason t' = Task.reviewReason t.
Proof.
  intros Hi Hm Hchunks.
  assert (Hall : Forall (fun c => Chunk.status c = ChunkStatus.pending) (planChunks plan)).
  { destruct Hchunks as [Hnil | Hall]; [rewrite Hnil; constructor | exact Hall]. }
  eexists. split; [apply (updateTaskFromPlan_lookup now taskId plan s i t Hi Hm)|].
  rewrite (deriveStatus_all_pending _ t Hall). split; reflexivity.
Qed.

Lemma updateTaskFromPlan_nothing_started_witness :
  exists t',
    tasks (updateTaskFromPlan 7 "t2"
             (samplePlan ChunkStatus.pending ChunkStatus.pending ChunkStatus.pending)
             sampleStore) !! 1%nat = Some t' /\
    Task.status t' = TaskStatus.backlog /\
    Task.reviewReason t' = None.
Proof.
  apply (updateTaskFromPlan_nothing_started 7 "t2"
           (samplePlan ChunkStatus.pending ChunkStatus.pending ChunkStatus.pending)
           sampleStore 1%nat
           (sampleTask "t2" "002-second" TaskStatus.backlog None (Some "ideation"))).
  - reflexivity.
  - reflexivity.
  - right. vm_compute. repeat constructor.
Defined.

Lemma no_completed_chunk (chunks : list Chunk.t) :
  length (List.filter (hasStatus ChunkStatus.completed) chunks) = 0%nat
  <-> Forall (fun c => Chunk.status c <> ChunkStatus.completed) chunks.
Proof.
  induction chunks as [|c chunks IH]; simpl.
  - split; [constructor | reflexivity].
  - destruct (hasStatus ChunkStatus.completed c) eqn:E; simpl.
    + apply hasStatus_true in E. split; [discriminate|].
      intros Hall. inversion Hall as [|? ? Hc Hrest]. contradiction.
    + rewrite IH. split.
      * intros Hall. constructor; [|exact Hall].
        intros Hc. apply hasStatus_true in Hc. congruence.
      * intros Hall. inversion Hall as [|? ? Hc Hrest]. exact Hrest.
Qed.

(** C4: [isIncompleteHumanReview] holds exactly of the tasks in
    [human_review] whose chunks are absent, empty, or include no
    [completed] chunk; of a task in any other status it is false. *)
Theorem isIncompleteHumanReview_iff (task : Task.t) :
  (isIncompleteHumanReview task = true <->
     Task.status task = TaskStatus.human_review /\
     (Task.chunks task = None \/ Task.chunks task = Some [] \/
      exists chunks, Task.chunks task = Some chunks /\
        Forall (fun c => Chunk.status c <> ChunkStatus.completed) chunks))
  /\ (Task.status task <> TaskStatus.human_review ->
        isIncompleteHumanReview task = false).
Proof.
  unfold isIncompleteHumanReview. split.
  - destruct (decide (Task.status task = TaskStatus.human_review)) as [Hs | Hs].
    + rewrite (bool_decide_eq_true_2 _ Hs). simpl.
      destruct (Task.chunks task) as [chunks|].
      * destruct chunks as [|c chunks].
        -- simpl. split; [intros _; split; [exact Hs | right; left; reflexivity] | reflexivity].
        -- change (length (c :: chunks) =? 0)%nat with false. cbv iota.
           rewrite Nat.eqb_eq, no_completed_chunk. split.
           ++ intros Hnone. split; [exact Hs|]. right. right.
              exists (c :: chunks). split; [reflexivity | exact Hnone].
           ++ intros [_ [Hc | [Hc | [chunks' [Hc Hnone]]]]]; try discriminate.
              injection Hc as <-. exact Hnone.
      * split; [intros _; split; [exact Hs | left; reflexivity] | reflexivity].
    + rewrite (bool_decide_eq_false_2 _ Hs). simpl.
      split; [discriminate | intros [Hs' _]; contradiction].
  - intros Hs. rewrite (bool_decide_eq_false_2 _ Hs). reflexivity.
Qed.

(** ** Which tasks a store operation rewrites *)

Lemma run_lookup (m : Mutation) (s : TaskState) (i : nat) :
  tasks (run m s) !! i =
    (fun t => if matchesId (target m) t then rewritten m t else t) <$> (tasks s !! i).
Proof.
  destruct m; simpl; rewrite lookup_map; try reflexivity.
  - destruct (tasks s !! i) as [t|]; simpl; [|reflexivity].
    unfold planUpdate. rewrite guard_matchesId.
    destruct (matchesId taskId t); reflexivity.
  - destruct (tasks s !! i) as [t|]; simpl; [|reflexivity].
    unfold progressUpdate. rewrite guard_matchesId.
    destruct (matchesId taskId t); reflexivity.
Qed.

Lemma run_length (m : Mutation) (s : TaskState) :
  length (tasks (run m s)) = length (tasks s).
Proof. destruct m; simpl; apply length_map. Qed.

(** C10: each of [updateTask], [updateTaskStatus], [updateTaskFromPlan],
    [updateExecutionProgress] and [appendLog] rewrites the tasks whose [id]
    or [specId] equals the identifier it is given, in place, and leaves
    every task whose [id] and [specId] both differ from it as it was; the
    list keeps its length and the rest of the store is untouched.  What is
    written on a matching task: [updateTask] the properties that the
    update carries; [updateTaskStatus] the status and [updatedAt];
    [updateTaskFromPlan] the title (the feature of the plan, unless it is
    missing or empty), the chunks of the plan, the status and review
    reason derived from them, and [updatedAt]; [updateExecutionProgress]
    the update spread over the progress the task has (the idle progress
    when it has none), and [updatedAt]; [appendLog] the log with the line
    added at its end.  Every other property keeps its value. *)
Theorem mutation_touches_matching_only (m : Mutation) (s : TaskState)
    (i : nat) (t : Task.t) :
  tasks s !! i = Some t ->
  (Task.id t = target m \/ Task.specId t = target m ->
     tasks (run m s) !! i =
       Some
         match m with
         | UpdateTask _ updates =>
             Task.mk
               (match TaskPatch.id updates with Some v => v | None => Task.id t end)
               (match TaskPatch.specId updates with Some v => v | None => Task.specId t end)
               (match TaskPatch.title updates with Some v => v | None => Task.title t end)
               (match TaskPatch.description updates with
                | Some v => v | None => Task.description t end)
               (match TaskPatch.status updates with Some v => v | None => Task.status t end)
               (match TaskPatch.reviewReason updates with
                | Some v => v | None => Task.reviewReason t end)
               (match TaskPatch.chunks updates with Some v => v | None => Task.chunks t end)
               (match TaskPatch.executionProgress updates with
                | Some v => v | None => Task.executionProgress t end)
               (match TaskPatch.metadata updates with
                | Some v => v | None => Task.metadata t end)
               (match TaskPatch.logs updates with Some v => v | None => Task.logs t end)
               (match TaskPatch.createdAt updates with
                | Some v => v | None => Task.createdAt t end)
               (match TaskPatch.updatedAt updates with
                | Some v => v | None => Task.updatedAt t end)
         | UpdateTaskStatus now _ status =>
             Task.mk (Task.id t) (Task.specId t) (Task.title t) (Task.description t)
               status (Task.reviewReason t) (Task.chunks t) (Task.executionProgress t)
               (Task.metadata t) (Task.logs t) (Task.createdAt t) now
         | UpdateTaskFromPlan now _ plan =>
             Task.mk (Task.id t) (Task.specId t)
               (match ImplementationPlan.feature plan with
                | Some feature =>
                    if bool_decide (feature = "") then Task.title t else feature
                | None => Task.title t
                end)
               (Task.description t)
               (fst (deriveStatus (planChunks plan) t))
               (snd (deriveStatus (planChunks plan) t))
               (Some
                  (flat_map
                     (fun phase =>
                        map (fun c =>
                               Chunk.mk (PlanChunk.id c) (PlanChunk.description c)
                                 (PlanChunk.description c) (PlanChunk.status c) []
                                 (PlanChunk.verification c))
                            (PlanPhase.chunks phase))
                     (ImplementationPlan.phases plan)))
               (Task.executionProgress t) (Task.metadata t) (Task.logs t)
               (Task.createdAt t) now
         | UpdateExecutionProgress now _ progress =>
             Task.mk (Task.id t) (Task.specId t) (Task.title t) (Task.description t)
               (Task.status t) (Task.reviewReason t) (Task.chunks t)
               (Some
                  (progress ∪
                   match Task.executionProgress t with
                   | Some prior => prior
                   | None =>
                       {[ "phase" := PPhase ExecutionPhase.idle;
                          "phaseProgress" := PNumber 0;
                          "overallProgress" := PNumber 0 ]}
                   end))
               (Task.metadata t) (Task.logs t) (Task.createdAt t) now
         | AppendLog _ log =>
             Task.mk (Task.id t) (Task.specId t) (Task.title t) (Task.description t)
               (Task.status t) (Task.reviewReason t) (Task.chunks t)
               (Task.executionProgress t) (Task.metadata t)
               (Some
                  (match Task.logs t with Some logs => logs | None => [] end
                   ++ [log])%list)
               (Task.createdAt t) (Task.updatedAt t)
         end)
  /\ (Task.id t <> target m /\ Task.specId t <> target m ->
        tasks (run m s) !! i = Some t)
  /\ length (tasks (run m s)) = length (tasks s)
  /\ selectedTaskId (run m s) = selectedTaskId s
  /\ isLoading (run m s) = isLoading s
  /\ error (run m s) = error s.
Proof.
  intros Hi. rewrite run_lookup, Hi. simpl. repeat split.
  - intros Hm. apply matchesId_spec in Hm. rewrite Hm. f_equal.
    destruct m as [taskId updates|now taskId status|now taskId plan
                  |now taskId progress|taskId log]; simpl.
    + unfold applyPatch.
      destruct updates as [uid uspec utitle udesc ustatus ureason uchunks
                           uprogress umeta ulogs ucreated uupdated]; simpl.
      destruct uid, uspec, utitle, udesc, ustatus, ureason, uchunks,
               uprogress, umeta, ulogs, ucreated, uupdated; reflexivity.
    + reflexivity.
    + unfold withPlan.
      destruct (deriveStatus (planChunks plan) t) as [status reason].
      reflexivity.
    + unfold withProgress, spread, existingProgress.
      destruct (Task.executionProgress t); reflexivity.
    + unfold withLog. destruct (Task.logs t); reflexivity.
  - intros [Hid Hspec].
    destruct (matchesId (target m) t) eqn:E; [|reflexivity].
    apply matchesId_spec in E. destruct E; contradiction.
  - apply run_length.
  - destruct m; reflexivity.
  - destruct m; reflexivity.
  - destruct m; reflexivity.
Qed.

Lemma mutation_touches_matching_only_witness :
  tasks (run (AppendLog "002-second" "started") sampleStore) !! 1%nat =
    Some (Task.mk "t2" "002-second" "A task" "" TaskStatus.backlog None None None
            (Some (TaskMetadata.mk (Some "ideation") None None None None))
            (Some ["started"]) 0 0)
  /\ tasks (run (AppendLog "002-second" "started") sampleStore) !! 0%nat =
       Some (sampleTask "t1" "001-first" TaskStatus.in_progress None (Some "manual")).
Proof.
  split.
  - destruct (mutation_touches_matching_only (AppendLog "002-second" "started")
                sampleStore 1%nat
                (sampleTask "t2" "002-second" TaskStatus.backlog None (Some "ideation"))
                eq_refl) as (Hmatching & _).
    apply Hmatching. right. reflexivity.
  - destruct (mutation_touches_matching_only (AppendLog "002-second" "started")
                sampleStore 0%nat
                (sampleTask "t1" "001-first" TaskStatus.in_progress None (Some "manual"))
                eq_refl) as (_ & Hother & _).
    apply Hother. split; discriminate.
Defined.

(** ** Merging execution progress *)

Lemma spread_lookup_absent (a b : Progress) (k : string) :
  b !! k = None -> spread a b !! k = a !! k.
Proof.
  intros Hk. unfold spread. rewrite lookup_union, Hk.
  destruct (a !! k); reflexivity.
Qed.

Lemma spread_lookup_present (a b : Progress) (k : string) (v : PVal) :
  b !! k = Some v -> spread a b !! k = Some v.
Proof.
  intros Hk. unfold spread. apply lookup_union_Some_l. exact Hk.
Qed.

Lemma updateExecutionProgress_lookup (now : Date) (taskId : string)
    (progress : Progress) (s : TaskState) (i : nat) (t : Task.t) :
  tasks s !! i = Some t ->
  matchesId taskId t = true ->
  tasks (updateExecutionProgress now taskId progress s) !! i =
    Some (withProgress now progress t).
Proof.
  intros Hi Hm. unfold updateExecutionProgress. simpl.
  rewrite lookup_map, Hi. simpl.
  unfold progressUpdate. rewrite guard_matchesId, Hm. reflexivity.
Qed.

(** C6: [updateExecutionProgress] merges the update into the progress the
    task already has (the idle progress when it has none): a property
    absent from the update keeps the value it had, a property the update
    carries takes the carried value, and of the task only
    [executionProgress] and [updatedAt] change. *)
Theorem updateExecutionProgress_merges (now : Date) (taskId : string)
    (progress : Progress) (s : TaskState) (i : nat) (t : Task.t) :
  tasks s !! i = Some t ->
  matchesId taskId t = true ->
  exists t' merged,
    tasks (updateExecutionProgress now taskId progress s) !! i = Some t' /\
    Task.executionProgress t' = Some merged /\
    (forall prior k, Task.executionProgress t = Some prior ->
       progress !! k = None -> merged !! k = prior !! k) /\
    (forall k, Task.executionProgress t = None ->
       progress !! k = None -> merged !! k = idleProgress !! k) /\
    (forall k v, progress !! k = Some v -> merged !! k = Some v) /\
    Task.id t' = Task.id t /\ Task.specId t' = Task.specId t /\
    Task.title t' = Task.title t /\ Task.description t' = Task.description t /\
    Task.status t' = Task.status t /\ Task.reviewReason t' = Task.reviewReason t /\
    Task.chunks t' = Task.chunks t /\ Task.metadata t' = Task.metadata t /\
    Task.logs t' = Task.logs t /\ Task.createdAt t' = Task.createdAt t.
Proof.
  intros Hi Hm.
  exists (withProgress now progress t), (spread (existingProgress t) progress).
  split; [apply updateExecutionProgress_lookup; assumption|].
  split; [reflexivity|].
  split.
  { intros prior k Hprior Hk. rewrite (spread_lookup_absent _ _ _ Hk).
    unfold existingProgress. rewrite Hprior. reflexivity. }
  split.
  { intros k Hnone Hk. rewrite (spread_lookup_absent _ _ _ Hk).
    unfold existingProgress. rewrite Hnone. reflexivity. }
  split.
  { intros k v Hk. apply spread_lookup_present. exact Hk. }
  repeat split.
Qed.

(** ** The overall progress across an update *)




Lemma updateExecutionProgress_merges_witness :
  exists t' merged,
    tasks (updateExecutionProgress 9 "t1" {[ "message" := PString "Editing" ]}
             codingStore) !! 0%nat = Some t' /\
    Task.executionProgress t' = Some merged /\
    merged !! "overallProgress" = Some (PNumber 50) /\
    merged !! "message" = Some (PString "Editing") /\
    Task.status t' = TaskStatus.in_progress.
Proof.
  destruct (updateExecutionProgress_merges 9 "t1" {[ "message" := PString "Editing" ]}
              codingStore 0%nat codingTask eq_refl eq_refl)
    as (t' & merged & Hlookup & Hmerged & Hprior & _ & Hcarried & _ & _ & _ & _ & Hstatus & _).
  exists t', merged.
  split; [exact Hlookup|]. split; [exact Hmerged|].
  split; [rewrite (Hprior codingProgress "overallProgress" eq_refl eq_refl); reflexivity|].
  split; [apply Hcarried; reflexivity | exact Hstatus].
Defined.



(** ** The review reason across status changes *)

Lemma withStatus_reviewReason (now : Date) (status : TaskStatus.t) (t : Task.t) :
  Task.reviewReason (withStatus now status t) = Task.reviewReason t
  /\ Task.status (withStatus now status t) = status.
Proof. split; reflexivity. Qed.

(** The derivation from a plan keeps the invariant: it clears the reason
    whenever it moves the task to [ai_review] or [in_progress]. *)
Lemma withPlan_reviewReasonInv (now : Date) (plan : ImplementationPlan.t) (t : Task.t) :
  reviewReasonInv t -> reviewReasonInv (withPlan now plan t).
Proof.
  unfold reviewReasonInv, withPlan, deriveStatus. intros Hinv.
  destruct ((0 <? length (planChunks plan))%nat
            && forallb (hasStatus ChunkStatus.completed) (planChunks plan)).
  - destruct (isManual t); simpl; [reflexivity | intros [r Hr]; discriminate].
  - destruct (existsb (hasStatus ChunkStatus.failed) (planChunks plan)).
    + reflexivity.
    + destruct (existsb (hasStatus ChunkStatus.in_progress) (planChunks plan)
                || existsb (hasStatus ChunkStatus.completed) (planChunks plan)); simpl.
      * intros [r Hr]; discriminate.
      * exact Hinv.
Qed.

(** C8: the invariant that a review reason is defined only in
    [human_review] is not kept by [updateTaskStatus]: approving the review
    of a task in [human_review] with reason [completed] moves it to [done],
    rejecting it moves it to [in_progress], and the reason stays in both
    cases. *)
Theorem submitReview_keeps_reviewReason :
  reviewReasonInv reviewedTask /\
  (exists t',
     submitReview acceptReview 9 "t1" true None reviewStore
       = (true, mkTaskState [t'] None false None) /\
     Task.status t' = TaskStatus.done /\
     Task.reviewReason t' = Some ReviewReason.completed /\
     ~ reviewReasonInv t') /\
  (exists t',
     submitReview acceptReview 9 "t1" false (Some [102; 105; 120]%N) reviewStore
       = (true, mkTaskState [t'] None false None) /\
     Task.status t' = TaskStatus.in_progress /\
     Task.reviewReason t' = Some ReviewReason.completed /\
     ~ reviewReasonInv t').
Proof.
  assert (Hdefined : is_Some (Some ReviewReason.completed)) by (eexists; reflexivity).
  split; [intros _; reflexivity|]. split.
  - exists (withStatus 9 TaskStatus.done reviewedTask).
    split; [reflexivity|]. split; [reflexivity|]. split; [reflexivity|].
    intros Hinv. specialize (Hinv Hdefined). discriminate Hinv.
  - exists (withStatus 9 TaskStatus.in_progress reviewedTask).
    split; [reflexivity|]. split; [reflexivity|]. split; [reflexivity|].
    intros Hinv. specialize (Hinv Hdefined). discriminate Hinv.
Qed.

(** ** Rejecting with blank feedback *)

Lemma trimStart_blank (s : jsstring) :
  Forall (fun c => isWhiteSpace c = true) s -> trimStart s = [].
Proof.
  intros Hall. induction Hall as [|c s Hc _ IH]; simpl.
  - reflexivity.
  - rewrite Hc. exact IH.
Qed.

Lemma trim_blank (s : jsstring) :
  Forall (fun c => isWhiteSpace c = true) s -> trim s = [].
Proof.
  intros Hall. unfold trim, trimEnd. rewrite (trimStart_blank s Hall). reflexivity.
Qed.

Lemma trimStart_keeps_visible (s : jsstring) :
  Exists (fun c => isWhiteSpace c = false) s ->
  Exists (fun c => isWhiteSpace c = false) (trimStart s).
Proof.
  induction s as [|c s IH]; simpl; intros Hex.
  - exact Hex.
  - destruct (isWhiteSpace c) eqn:E.
    + apply IH. inversion Hex as [? ? Hc | ? ? Hrest]; [congruence | exact Hrest].
    + left. exact E.
Qed.

Lemma trim_visible (s : jsstring) :
  Exists (fun c => isWhiteSpace c = false) s -> trim s <> [].
Proof.
  intros Hex. unfold trim, trimEnd.
  apply trimStart_keeps_visible in Hex.
  assert (Hrev : Exists (fun c => isWhiteSpace c = false) (rev (trimStart s))).
  { apply Exists_exists in Hex as [c [Hin Hc]].
    apply Exists_exists. exists c. split; [|exact Hc].
    apply list_elem_of_In. apply list_elem_of_In in Hin.
    apply in_rev in Hin. exact Hin. }
  apply trimStart_keeps_visible in Hrev.
  intros Hnil. apply (f_equal (@rev N)) in Hnil. rewrite rev_involutive in Hnil.
  simpl in Hnil. rewrite Hnil in Hrev. inversion Hrev.
Qed.

(** Feedback with a visible character is submitted as written. *)
Lemma handleReject_submits (task : Task.t) (st : Panel.State) :
  Exists (fun c => isWhiteSpace c = false) (Panel.feedback st) ->
  Panel.handleReject task st =
    [Panel.SetIsSubmitting true;
     Panel.SubmitReview (Task.id task) false (Some (Panel.feedback st));
     Panel.SetIsSubmitting false; Panel.SetFeedback []].
Proof.
  intros Hex. unfold Panel.handleReject, truthy.
  destruct (trim (Panel.feedback st)) as [|c r] eqn:E.
  - exfalso. apply (trim_visible _ Hex). exact E.
  - reflexivity.
Qed.

(** C9: when the feedback is empty or consists of white space only,
    [handleReject] returns at once: it sets no state and does not call
    [submitReview], so nothing is sent to the control process; the reject
    button is disabled for such feedback as well. *)
Theorem handleReject_blank_feedback (task : Task.t) (st : Panel.State) :
  Forall (fun c => isWhiteSpace c = true) (Panel.feedback st) ->
  Panel.handleReject task st = []
  /\ existsb Panel.callsSubmitReview (Panel.handleReject task st) = false
  /\ Panel.rejectDisabled st = true.
Proof.
  intros Hall. unfold Panel.handleReject, Panel.rejectDisabled.
  rewrite (trim_blank _ Hall). simpl.
  split; [reflexivity|]. split; [reflexivity | apply orb_true_r].
Qed.

Lemma handleReject_blank_feedback_witness :
  Panel.handleReject reviewedTask (Panel.mkState [32; 9; 10; 8195]%N false) = []
  /\ existsb Panel.callsSubmitReview
       (Panel.handleReject reviewedTask (Panel.mkState [32; 9; 10; 8195]%N false)) = false
  /\ Panel.rejectDisabled (Panel.mkState [32; 9; 10; 8195]%N false) = true.
Proof.
  apply (handleReject_blank_feedback reviewedTask
           (Panel.mkState [32; 9; 10; 8195]%N false)).
  simpl. repeat constructor.
Defined.

(** ** Recovering a stuck task twice *)

Lemma startCount_started (taskId : string) (rec rec' : gmap string TaskStatus.t)
    (log : list string) (restart : bool) :
  startCount taskId
    (mkControl rec' (if restart then (log ++ [taskId])%list else log)) =
  (startCount taskId (mkControl rec log) + (if restart then 1 else 0))%nat.
Proof.
  unfold startCount. simpl. destruct restart.
  - rewrite List.filter_app, length_app. simpl.
    unfold streq. rewrite bool_decide_eq_true_2 by reflexivity. reflexivity.
  - rewrite Nat.add_0_r. reflexivity.
Qed.

Lemma restartInEffect_true (options : option RecoverOptions.t) :
  restartInEffect options = true ->
  options = None \/ explicitlyRequested options.
Proof.
  unfold restartInEffect, explicitlyRequested. intros H.
  apply bool_decide_eq_true in H.
  destruct options as [opts|]; [right | left; reflexivity].
  exists opts. split; [reflexivity | exact H].
Qed.

Section Recovery.
Variable naturalNext : TaskStatus.t -> TaskStatus.t.
Variable whenLive :
  string -> RecoverOptions.t -> Control -> IpcOutcome TaskRecoveryResult.t * Control.

(** One call of [recoverStuckTask] for a recorded task whose worker is
    not running. *)
Lemma recoverStuckTask_not_running (now : Date) (taskId : string)
    (options : option RecoverOptions.t) (s : TaskState) (c : Control)
    (st : TaskStatus.t) :
  recorded c !! taskId = Some st ->
  exists r s' c',
    recoverStuckTask (control_recoverStuckTask naturalNext whenLive false)
      now taskId options (s, c) = (r, (s', c')) /\
    RecoverReply.success r = true /\
    is_Some (recorded c' !! taskId) /\
    startCount taskId c' =
      (startCount taskId c + (if restartInEffect options then 1 else 0))%nat.
Proof.
  intros Hrec. unfold recoverStuckTask, control_recoverStuckTask.
  rewrite Hrec. cbv zeta. do 3 eexists.
  split; [reflexivity|]. split; [reflexivity|]. split.
  - simpl. rewrite lookup_insert_eq. eexists; reflexivity.
  - destruct c as [rec log]. apply startCount_started.
Qed.
End Recovery.

(** C5: as the code has it, two calls of [recoverStuckTask] in a row for a
    recorded task whose worker is not running both report success; each
    call re-invokes the start operation exactly when [autoRestart] is in
    effect for it, which is when the call passes [autoRestart: true] or
    passes no options at all (the default is [{ autoRestart: true }]).
    The worker is started twice only if that holds of both calls. *)
Theorem recoverStuckTask_twice
    (naturalNext : TaskStatus.t -> TaskStatus.t)
    (whenLive : string -> RecoverOptions.t -> Control ->
                IpcOutcome TaskRecoveryResult.t * Control)
    (now1 now2 : Date) (taskId : string)
    (options1 options2 : option RecoverOptions.t)
    (s : TaskState) (c : Control) :
  is_Some (recorded c !! taskId) ->
  exists r1 s1 c1 r2 s2 c2,
    recoverStuckTask (control_recoverStuckTask naturalNext whenLive false)
      now1 taskId options1 (s, c) = (r1, (s1, c1)) /\
    recoverStuckTask (control_recoverStuckTask naturalNext whenLive false)
      now2 taskId options2 (s1, c1) = (r2, (s2, c2)) /\
    RecoverReply.success r1 = true /\
    RecoverReply.success r2 = true /\
    startCount taskId c2 =
      (startCount taskId c + (if restartInEffect options1 then 1 else 0)
       + (if restartInEffect options2 then 1 else 0))%nat /\
    ((startCount taskId c + 2 <= startCount taskId c2)%nat ->
       (options1 = None \/ explicitlyRequested options1) /\
       (options2 = None \/ explicitlyRequested options2)).
Proof.
  intros [st Hrec].
  destruct (recoverStuckTask_not_running naturalNext whenLive now1 taskId options1 s c st Hrec)
    as (r1 & s1 & c1 & Hcall1 & Hok1 & [st1 Hrec1] & Hcount1).
  destruct (recoverStuckTask_not_running naturalNext whenLive now2 taskId options2 s1 c1 st1 Hrec1)
    as (r2 & s2 & c2 & Hcall2 & Hok2 & _ & Hcount2).
  exists r1, s1, c1, r2, s2, c2.
  split; [exact Hcall1|]. split; [exact Hcall2|].
  split; [exact Hok1|]. split; [exact Hok2|].
  split; [lia|].
  intros Htwice.
  destruct (restartInEffect options1) eqn:E1, (restartInEffect options2) eqn:E2;
    try lia.
  split; apply restartInEffect_true; assumption.
Qed.

Lemma recoverStuckTask_twice_witness :
  exists r1 s1 c1 r2 s2 c2,
    recoverStuckTask (control_recoverStuckTask keepStatus refuseLive false)
      1 "t1" (Some (RecoverOptions.mk None (Some true))) (sampleStore, stuckControl)
      = (r1, (s1, c1)) /\
    recoverStuckTask (control_recoverStuckTask keepStatus refuseLive false)
      2 "t1" (Some (RecoverOptions.mk (Some TaskStatus.backlog) None)) (s1, c1)
      = (r2, (s2, c2)) /\
    RecoverReply.success r1 = true /\
    RecoverReply.success r2 = true /\
    startCount "t1" c2 = 1%nat.
Proof.
  assert (Hrec : is_Some (recorded stuckControl !! "t1")).
  { exists TaskStatus.in_progress. reflexivity. }
  destruct (recoverStuckTask_twice keepStatus refuseLive 1 2 "t1"
              (Some (RecoverOptions.mk None (Some true)))
              (Some (RecoverOptions.mk (Some TaskStatus.backlog) None))
              sampleStore stuckControl Hrec)
    as (r1 & s1 & c1 & r2 & s2 & c2 & Hcall1 & Hcall2 & Hok1 & Hok2 & Hcount & _).
  exists r1, s1, c1, r2, s2, c2.
  split; [exact Hcall1|]. split; [exact Hcall2|].
  split; [exact Hok1|]. split; [exact Hok2|]. exact Hcount.
Defined.

(** Against C5 as stated: two calls that pass no options both succeed and
    start the worker twice, though neither asks for a restart in so many
    words. *)
Lemma recoverStuckTask_default_restarts :
  exists r1 s1 c1 r2 s2 c2,
    recoverStuckTask (control_recoverStuckTask keepStatus refuseLive false)
      1 "t1" None (sampleStore, stuckControl) = (r1, (s1, c1)) /\
    recoverStuckTask (control_recoverStuckTask keepStatus refuseLive false)
      2 "t1" None (s1, c1) = (r2, (s2, c2)) /\
    RecoverReply.success r1 = true /\
    RecoverReply.success r2 = true /\
    startLog stuckControl = [] /\
    startLog c2 = ["t1"; "t1"] /\
    ~ explicitlyRequested None.
Proof.
  do 6 eexists.
  split; [vm_compute; reflexivity|].
  split; [vm_compute; reflexivity|].
  split; [reflexivity|]. split; [reflexivity|].
  split; [reflexivity|]. split; [reflexivity|].
  intros [opts [Hsome _]]. discriminate Hsome.
Qed.

(** * Further properties of the store *)

(** ** More on the status derived from a plan *)

Lemma forallb_hasStatus_false (st : ChunkStatus.t) (chunks : list Chunk.t) :
  ~ Forall (fun c => Chunk.status c = st) chunks ->
  forallb (hasStatus st) chunks = false.
Proof.
  intros Hnot. destruct (forallb (hasStatus st) chunks) eqn:E; [|reflexivity].
  exfalso. apply Hnot. apply forallb_hasStatus. exact E.
Qed.

Lemma existsb_hasStatus_false (st : ChunkStatus.t) (chunks : list Chunk.t) :
  Forall (fun c => Chunk.status c <> st) chunks ->
  existsb (hasStatus st) chunks = false.
Proof.
  intros Hall. induction Hall as [|c chunks Hc _ IH]; simpl; [reflexivity|].
  rewrite IH, orb_false_r. unfold hasStatus. apply bool_decide_eq_false. exact Hc.
Qed.

Lemma existsb_either (st st' : ChunkStatus.t) (chunks : list Chunk.t) :
  Exists (fun c => Chunk.status c = st \/ Chunk.status c = st') chunks ->
  existsb (hasStatus st) chunks || existsb (hasStatus st') chunks = true.
Proof.
  intros Hsome. apply orb_true_iff. rewrite !existsb_hasStatus.
  induction Hsome as [c l [Hc | Hc] | c l _ [IH | IH]].
  - left. left. exact Hc.
  - right. left. exact Hc.
  - left. right. exact IH.
  - right. right. exact IH.
Qed.

(** X1: when no chunk of the plan is [failed], not every chunk is
    [completed], and some chunk is [in_progress] or [completed],
    [updateTaskFromPlan] puts a matching task in [in_progress] and clears
    its review reason. *)
Theorem updateTaskFromPlan_work_in_progress (now : Date) (taskId : string)
    (plan : ImplementationPlan.t) (s : TaskState) (i : nat) (t : Task.t) :
  tasks s !! i = Some t ->
  matchesId taskId t = true ->
  Forall (fun c => Chunk.status c <> ChunkStatus.failed) (planChunks plan) ->
  ~ Forall (fun c => Chunk.status c = ChunkStatus.completed) (planChunks plan) ->
  Exists (fun c => Chunk.status c = ChunkStatus.in_progress
                   \/ Chunk.status c = ChunkStatus.completed) (planChunks plan) ->
  exists t', tasks (updateTaskFromPlan now taskId plan s) !! i = Some t' /\
    Task.status t' = TaskStatus.in_progress /\
    Task.reviewReason t' = None.
Proof.
  intros Hi Hm Hnofail Hnotall Hsome.
  eexists. split; [apply (updateTaskFromPlan_lookup now taskId plan s i t Hi Hm)|].
  assert (Hd : deriveStatus (planChunks plan) t = (TaskStatus.in_progress, None)).
  { unfold deriveStatus.
    rewrite (forallb_hasStatus_false _ _ Hnotall), andb_false_r.
    rewrite (existsb_hasStatus_false _ _ Hnofail).
    rewrite (existsb_either _ _ _ Hsome). reflexivity. }
  rewrite Hd. split; reflexivity.
Qed.

Lemma updateTaskFromPlan_work_in_progress_witness :
  exists t',
    tasks (updateTaskFromPlan 7 "t2"
             (samplePlan ChunkStatus.completed ChunkStatus.in_progress ChunkStatus.pending)
             sampleStore) !! 1%nat = Some t' /\
    Task.status t' = TaskStatus.in_progress /\
    Task.reviewReason t' = None.
Proof.
  apply (updateTaskFromPlan_work_in_progress 7 "t2"
           (samplePlan ChunkStatus.completed ChunkStatus.in_progress ChunkStatus.pending)
           sampleStore 1%nat
           (sampleTask "t2" "002-second" TaskStatus.backlog None (Some "ideation"))).
  - reflexivity.
  - reflexivity.
  - vm_compute. repeat constructor; discriminate.
  - vm_compute. intros H. inversion H as [|? ? _ H2]. inversion H2. discriminate.
  - vm_compute. left. right. reflexivity.
Defined.

Lemma forallb_Permutation {A : Type} (f : A -> bool) (l l' : list A) :
  Permutation l l' -> forallb f l = forallb f l'.
Proof.
  intros Hp. induction Hp as [|x l l' _ IH|x y l|l l' l'' _ IH1 _ IH2]; simpl.
  - reflexivity.
  - rewrite IH. reflexivity.
  - destruct (f x), (f y); reflexivity.
  - congruence.
Qed.

Lemma existsb_Permutation {A : Type} (f : A -> bool) (l l' : list A) :
  Permutation l l' -> existsb f l = existsb f l'.
Proof.
  intros Hp. induction Hp as [|x l l' _ IH|x y l|l l' l'' _ IH1 _ IH2]; simpl.
  - reflexivity.
  - rewrite IH. reflexivity.
  - destruct (f x), (f y); reflexivity.
  - congruence.
Qed.

Lemma withPlan_unfold (now : Date) (plan : ImplementationPlan.t) (t : Task.t) :
  withPlan now plan t =
    Task.mk (Task.id t) (Task.specId t)
      (strOr (ImplementationPlan.feature plan) (Task.title t))
      (Task.description t)
      (fst (deriveStatus (planChunks plan) t))
      (snd (deriveStatus (planChunks plan) t))
      (Some (planChunks plan))
      (Task.executionProgress t) (Task.metadata t) (Task.logs t)
      (Task.createdAt t) now.
Proof.
  unfold withPlan. destruct (deriveStatus (planChunks plan) t). reflexivity.
Qed.

Lemma deriveStatus_Permutation (chunks chunks' : list Chunk.t) (t : Task.t) :
  Permutation chunks chunks' ->
  deriveStatus chunks t = deriveStatus chunks' t.
Proof.
  intros Hp. unfold deriveStatus.
  rewrite (Permutation_length Hp).
  rewrite (forallb_Permutation _ _ _ Hp).
  rewrite !(existsb_Permutation _ _ _ Hp). reflexivity.
Qed.

(** X2: the status and the review reason that [updateTaskFromPlan] gives a
    task do not depend on the order of the chunks: two plans whose chunks
    are the same up to order give the same result. *)
Theorem withPlan_order_irrelevant (now : Date) (plan plan' : ImplementationPlan.t)
    (t : Task.t) :
  Permutation (planChunks plan) (planChunks plan') ->
  Task.status (withPlan now plan t) = Task.status (withPlan now plan' t)
  /\ Task.reviewReason (withPlan now plan t) = Task.reviewReason (withPlan now plan' t).
Proof.
  intros Hp. rewrite !withPlan_unfold. simpl.
  rewrite (deriveStatus_Permutation _ _ t Hp). split; reflexivity.
Qed.

Lemma withPlan_order_irrelevant_witness :
  Task.status
    (withPlan 7 (ImplementationPlan.mk None
                   [PlanPhase.mk [PlanChunk.mk "c1" "first" ChunkStatus.completed None;
                                  PlanChunk.mk "c2" "second" ChunkStatus.failed None]])
       reviewedTask) =
  Task.status
    (withPlan 7 (ImplementationPlan.mk None
                   [PlanPhase.mk [PlanChunk.mk "c2" "second" ChunkStatus.failed None];
                    PlanPhase.mk [PlanChunk.mk "c1" "first" ChunkStatus.completed None]])
       reviewedTask).
Proof.
  apply (withPlan_order_irrelevant 7
           (ImplementationPlan.mk None
              [PlanPhase.mk [PlanChunk.mk "c1" "first" ChunkStatus.completed None;
                             PlanChunk.mk "c2" "second" ChunkStatus.failed None]])
           (ImplementationPlan.mk None
              [PlanPhase.mk [PlanChunk.mk "c2" "second" ChunkStatus.failed None];
               PlanPhase.mk [PlanChunk.mk "c1" "first" ChunkStatus.completed None]])
           reviewedTask).
  vm_compute. apply perm_swap.
Defined.

Lemma strOr_idem (x : option string) (fallback : string) :
  strOr x (strOr x fallback) = strOr x fallback.
Proof.
  unfold strOr. destruct x as [v|]; [|reflexivity].
  destruct (streq v ""); reflexivity.
Qed.

Lemma deriveStatus_withPlan (now : Date) (plan : ImplementationPlan.t) (t : Task.t) :
  deriveStatus (planChunks plan) (withPlan now plan t)
  = deriveStatus (planChunks plan) t.
Proof.
  rewrite withPlan_unfold.
  assert (Hmanual : forall a b c d e f g h k l m,
            isManual (Task.mk a b c d e f g h (Task.metadata t) k l m) = isManual t)
    by reflexivity.
  unfold deriveStatus. rewrite Hmanual. simpl.
  destruct ((0 <? length (planChunks plan))%nat
            && forallb (hasStatus ChunkStatus.completed) (planChunks plan));
    [reflexivity|].
  destruct (existsb (hasStatus ChunkStatus.failed) (planChunks plan)); [reflexivity|].
  destruct (existsb (hasStatus ChunkStatus.in_progress) (planChunks plan)
            || existsb (hasStatus ChunkStatus.completed) (planChunks plan));
    reflexivity.
Qed.

Lemma planUpdate_twice (now1 now2 : Date) (taskId : string)
    (plan : ImplementationPlan.t) (t : Task.t) :
  planUpdate now2 taskId plan (planUpdate now1 taskId plan t)
  = planUpdate now2 taskId plan t.
Proof.
  unfold planUpdate at 2.
  destruct (negb (streq (Task.id t) taskId) && negb (streq (Task.specId t) taskId))
    eqn:Hguard; [reflexivity|].
  unfold planUpdate.
  replace (Task.id (withPlan now1 plan t)) with (Task.id t)
    by (rewrite withPlan_unfold; reflexivity).
  replace (Task.specId (withPlan now1 plan t)) with (Task.specId t)
    by (rewrite withPlan_unfold; reflexivity).
  rewrite Hguard.
  rewrite (withPlan_unfold now2 plan (withPlan now1 plan t)).
  rewrite (deriveStatus_withPlan now1 plan t).
  rewrite (withPlan_unfold now2 plan t).
  rewrite (withPlan_unfold now1 plan t). simpl.
  rewrite strOr_idem. reflexivity.
Qed.

(** X3: re-deriving from the same plan changes nothing but the time stamp:
    [updateTaskFromPlan] with a plan, applied to a store that it was
    already applied to with that plan, gives what one application gives. *)
Theorem updateTaskFromPlan_idempotent (now1 now2 : Date) (taskId : string)
    (plan : ImplementationPlan.t) (s : TaskState) :
  updateTaskFromPlan now2 taskId plan (updateTaskFromPlan now1 taskId plan s)
  = updateTaskFromPlan now2 taskId plan s.
Proof.
  unfold updateTaskFromPlan, set_tasks. simpl. f_equal.
  rewrite map_map. apply map_ext. intros t. apply planUpdate_twice.
Qed.

(** X4: [updateTaskFromPlan] keeps the invariant that a review reason is
    defined only in [human_review]: if it holds of every task of the store,
    it holds of every task afterwards. *)
Theorem updateTaskFromPlan_keeps_reviewReasonInv (now : Date) (taskId : string)
    (plan : ImplementationPlan.t) (s : TaskState) :
  Forall reviewReasonInv (tasks s) ->
  Forall reviewReasonInv (tasks (updateTaskFromPlan now taskId plan s)).
Proof.
  intros Hall. unfold updateTaskFromPlan. simpl.
  induction Hall as [|t l Ht _ IH]; simpl; constructor; [|exact IH].
  unfold planUpdate.
  destruct (negb (streq (Task.id t) taskId) && negb (streq (Task.specId t) taskId)).
  - exact Ht.
  - apply withPlan_reviewReasonInv. exact Ht.
Qed.

Lemma updateTaskFromPlan_keeps_reviewReasonInv_witness :
  Forall reviewReasonInv
    (tasks (updateTaskFromPlan 7 "t1"
              (samplePlan ChunkStatus.completed ChunkStatus.in_progress ChunkStatus.pending)
              reviewStore)).
Proof.
  apply (updateTaskFromPlan_keeps_reviewReasonInv 7 "t1"
           (samplePlan ChunkStatus.completed ChunkStatus.in_progress ChunkStatus.pending)
           reviewStore).
  repeat constructor.
Defined.

(** X5: a plan with a failed chunk sends a matching task to
    [human_review]; [isIncompleteHumanReview] then holds of the task
    exactly when no chunk of the plan is [completed]. *)
Theorem updateTaskFromPlan_failed_incomplete (now : Date) (taskId : string)
    (plan : ImplementationPlan.t) (s : TaskState) (i : nat) (t : Task.t) :
  tasks s !! i = Some t ->
  matchesId taskId t = true ->
  Exists (fun c => Chunk.status c = ChunkStatus.failed) (planChunks plan) ->
  exists t', tasks (updateTaskFromPlan now taskId plan s) !! i = Some t' /\
    Task.status t' = TaskStatus.human_review /\
    (isIncompleteHumanReview t' = true <->
       Forall (fun c => Chunk.status c <> ChunkStatus.completed) (planChunks plan)).
Proof.
  intros Hi Hm Hex.
  eexists. split; [apply (updateTaskFromPlan_lookup now taskId plan s i t Hi Hm)|].
  rewrite (deriveStatus_failed _ t Hex). split; [reflexivity|].
  unfold isIncompleteHumanReview. simpl.
  destruct (planChunks plan) as [|c l] eqn:E.
  - inversion Hex.
  - change (length (c :: l) =? 0)%nat with false. cbv iota.
    rewrite Nat.eqb_eq. apply no_completed_chunk.
Qed.

Lemma updateTaskFromPlan_failed_incomplete_witness :
  exists t',
    tasks (updateTaskFromPlan 7 "t1"
             (samplePlan ChunkStatus.pending ChunkStatus.failed ChunkStatus.pending)
             sampleStore) !! 0%nat = Some t' /\
    Task.status t' = TaskStatus.human_review /\
    isIncompleteHumanReview t' = true.
Proof.
  assert (Hfailed :
    Exists (fun c => Chunk.status c = ChunkStatus.failed)
      (planChunks (samplePlan ChunkStatus.pending ChunkStatus.failed ChunkStatus.pending))).
  { vm_compute. right. left. reflexivity. }
  destruct (updateTaskFromPlan_failed_incomplete 7 "t1"
              (samplePlan ChunkStatus.pending ChunkStatus.failed ChunkStatus.pending)
              sampleStore 0%nat
              (sampleTask "t1" "001-first" TaskStatus.in_progress None (Some "manual"))
              eq_refl eq_refl Hfailed)
    as (t' & Hlookup & Hstatus & Hflag).
  exists t'. split; [exact Hlookup|]. split; [exact Hstatus|].
  apply Hflag. vm_compute. repeat constructor; discriminate.
Defined.

(** ** How the store operations compose *)

Lemma matchesId_withStatus (now : Date) (status : TaskStatus.t) (taskId : string)
    (t : Task.t) :
  matchesId taskId (withStatus now status t) = matchesId taskId t.
Proof. reflexivity. Qed.

(** X6: of two status updates for the same identifier the later one wins:
    the store is the one that the later update alone would give. *)
Theorem updateTaskStatus_last_wins (now1 now2 : Date) (taskId : string)
    (status1 status2 : TaskStatus.t) (s : TaskState) :
  updateTaskStatus now2 taskId status2 (updateTaskStatus now1 taskId status1 s)
  = updateTaskStatus now2 taskId status2 s.
Proof.
  unfold updateTaskStatus, set_tasks. simpl. f_equal.
  rewrite map_map. apply map_ext. intros t.
  destruct (matchesId taskId t) eqn:E.
  - rewrite matchesId_withStatus, E. reflexivity.
  - rewrite E. reflexivity.
Qed.

(** X7: [appendLog] adds the line at the end of the log of a matching task
    (an absent log counts as empty) and writes nothing else, not even
    [updatedAt]; two calls leave the two lines in the order of the calls,
    and every other property of the task as it was. *)
Theorem appendLog_accumulates (taskId : string) (log1 log2 : string)
    (s : TaskState) (i : nat) (t : Task.t) :
  tasks s !! i = Some t ->
  matchesId taskId t = true ->
  tasks (appendLog taskId log2 (appendLog taskId log1 s)) !! i =
    Some (Task.mk (Task.id t) (Task.specId t) (Task.title t) (Task.description t)
            (Task.status t) (Task.reviewReason t) (Task.chunks t)
            (Task.executionProgress t) (Task.metadata t)
            (Some
               (match Task.logs t with Some logs => logs | None => [] end
                ++ [log1; log2])%list)
            (Task.createdAt t) (Task.updatedAt t)).
Proof.
  intros Hi Hm. unfold appendLog. simpl. rewrite !lookup_map, Hi. simpl.
  rewrite Hm. change (matchesId taskId (withLog log1 t)) with (matchesId taskId t).
  rewrite Hm. unfold withLog. simpl. rewrite <- app_assoc.
  destruct (Task.logs t); reflexivity.
Qed.

Lemma appendLog_accumulates_witness :
  tasks (appendLog "002-second" "done" (appendLog "002-second" "started" sampleStore))
    !! 1%nat =
  Some (Task.mk "t2" "002-second" "A task" "" TaskStatus.backlog None None None
          (Some (TaskMetadata.mk (Some "ideation") None None None None))
          (Some ["started"; "done"]) 0 0).
Proof.
  apply (appendLog_accumulates "002-second" "started" "done" sampleStore 1%nat
           (sampleTask "t2" "002-second" TaskStatus.backlog None (Some "ideation"))).
  - reflexivity.
  - reflexivity.
Defined.

Lemma withProgress_twice (now1 now2 : Date) (p1 p2 : Progress) (t : Task.t) :
  withProgress now2 p2 (withProgress now1 p1 t) = withProgress now2 (spread p1 p2) t.
Proof.
  unfold withProgress, existingProgress, spread. simpl.
  rewrite (assoc_L (∪)). reflexivity.
Qed.

(** X8: two progress updates for the same identifier amount to one update
    with the merge of the two, the later one winning where both carry a
    property. *)
Theorem updateExecutionProgress_compose (now1 now2 : Date) (taskId : string)
    (p1 p2 : Progress) (s : TaskState) :
  updateExecutionProgress now2 taskId p2 (updateExecutionProgress now1 taskId p1 s)
  = updateExecutionProgress now2 taskId (spread p1 p2) s.
Proof.
  unfold updateExecutionProgress, set_tasks. simpl. f_equal.
  rewrite map_map. apply map_ext. intros t.
  unfold progressUpdate at 2.
  destruct (negb (streq (Task.id t) taskId) && negb (streq (Task.specId t) taskId))
    eqn:Hguard.
  - unfold progressUpdate. rewrite Hguard. reflexivity.
  - unfold progressUpdate.
    change (Task.id (withProgress now1 p1 t)) with (Task.id t).
    change (Task.specId (withProgress now1 p1 t)) with (Task.specId t).
    rewrite Hguard. apply withProgress_twice.
Qed.

(** ** Selectors *)

Lemma getTasksByStatus_lengths (l : list Task.t) :
  (length (filter (fun t => Task.status t = TaskStatus.backlog) l)
   + length (filter (fun t => Task.status t = TaskStatus.in_progress) l)
   + length (filter (fun t => Task.status t = TaskStatus.ai_review) l)
   + length (filter (fun t => Task.status t = TaskStatus.human_review) l)
   + length (filter (fun t => Task.status t = TaskStatus.done) l))%nat
  = length l.
Proof.
  induction l as [|t l IH]; [reflexivity|].
  rewrite !filter_cons.
  destruct (Task.status t); simpl;
    repeat (case_decide; try discriminate; try congruence); simpl; lia.
Qed.

(** X9: [getTasksByStatus] sorts the tasks of the store into the five
    statuses: a task is listed under a status exactly when it is in the
    store with that status, and the five lists together are as long as the
    list of tasks. *)
Theorem getTasksByStatus_partition (s : TaskState) :
  (forall t status,
     t ∈ getTasksByStatus status s <-> t ∈ tasks s /\ Task.status t = status)
  /\ (length (getTasksByStatus TaskStatus.backlog s)
      + length (getTasksByStatus TaskStatus.in_progress s)
      + length (getTasksByStatus TaskStatus.ai_review s)
      + length (getTasksByStatus TaskStatus.human_review s)
      + length (getTasksByStatus TaskStatus.done s))%nat
     = length (tasks s).
Proof.
  split.
  - intros t status. unfold getTasksByStatus.
    rewrite list_elem_of_filter. tauto.
  - unfold getTasksByStatus. apply getTasksByStatus_lengths.
Qed.

Lemma find_map_same {A : Type} (p : A -> bool) (f : A -> A) (l : list A) :
  (forall x, p (f x) = p x) ->
  List.find p (map f l) = f <$> List.find p l.
Proof.
  intros Hp. induction l as [|x l IH]; simpl; [reflexivity|].
  rewrite Hp. destruct (p x); [reflexivity | exact IH].
Qed.

Lemma planUpdate_id (now : Date) (taskId : string) (plan : ImplementationPlan.t)
    (t : Task.t) :
  Task.id (planUpdate now taskId plan t) = Task.id t.
Proof.
  unfold planUpdate.
  destruct (negb (streq (Task.id t) taskId) && negb (streq (Task.specId t) taskId));
    [reflexivity|].
  rewrite withPlan_unfold. reflexivity.
Qed.

Lemma progressUpdate_id (now : Date) (taskId : string) (progress : Progress)
    (t : Task.t) :
  Task.id (progressUpdate now taskId progress t) = Task.id t.
Proof.
  unfold progressUpdate.
  destruct (negb (streq (Task.id t) taskId) && negb (streq (Task.specId t) taskId));
    reflexivity.
Qed.

(** X10: the selection follows the updates.  After an operation that
    rewrites tasks and does not overwrite their [id], [getSelectedTask]
    returns the rewritten version of the task that it returned before (or
    nothing, if it returned nothing). *)
Theorem getSelectedTask_after_mutation (m : Mutation) (s : TaskState) :
  (forall taskId updates, m = UpdateTask taskId updates -> TaskPatch.id updates = None) ->
  getSelectedTask (run m s) =
    (fun t => if matchesId (target m) t then rewritten m t else t)
      <$> getSelectedTask s.
Proof.
  intros Hid. unfold getSelectedTask.
  assert (Hsel : selectedTaskId (run m s) = selectedTaskId s) by (destruct m; reflexivity).
  rewrite Hsel.
  destruct m as [taskId updates|now taskId status|now taskId plan
                |now taskId progress|taskId log]; simpl.
  - specialize (Hid taskId updates eq_refl).
    apply find_map_same. intros t.
    destruct (matchesId taskId t); [|reflexivity].
    unfold applyPatch. simpl. rewrite Hid. reflexivity.
  - apply find_map_same. intros t. destruct (matchesId taskId t); reflexivity.
  - rewrite (map_ext (planUpdate now taskId plan)
               (fun t => if matchesId taskId t then withPlan now plan t else t)).
    + apply find_map_same. intros t.
      destruct (matchesId taskId t); [|reflexivity].
      rewrite withPlan_unfold. reflexivity.
    + intros t. unfold planUpdate. rewrite guard_matchesId.
      destruct (matchesId taskId t); reflexivity.
  - rewrite (map_ext (progressUpdate now taskId progress)
               (fun t => if matchesId taskId t then withProgress now progress t else t)).
    + apply find_map_same. intros t. destruct (matchesId taskId t); reflexivity.
    + intros t. unfold progressUpdate. rewrite guard_matchesId.
      destruct (matchesId taskId t); reflexivity.
  - apply find_map_same. intros t. destruct (matchesId taskId t); reflexivity.
Qed.

Lemma getSelectedTask_after_mutation_witness :
  getSelectedTask
    (run (UpdateTaskStatus 9 "001-first" TaskStatus.done)
         (selectTask (Some "t1") sampleStore)) =
  Some (withStatus 9 TaskStatus.done
          (sampleTask "t1" "001-first" TaskStatus.in_progress None (Some "manual"))).
Proof.
  rewrite (getSelectedTask_after_mutation
             (UpdateTaskStatus 9 "001-first" TaskStatus.done)
             (selectTask (Some "t1") sampleStore)).
  - reflexivity.
  - intros taskId updates H. discriminate H.
Defined.

(** ** The functions that call the control process *)

(** X11: [deleteTask].  When the call resolves with success, the reply is
    a success without error, the tasks that remain are the tasks of the
    state read on entry whose [id] and [specId] both differ from the
    identifier, in their order, the selection is cleared exactly when the
    selection read on entry was the identifier, and the rest of the store
    is kept.  When the call resolves without success, or is rejected, the
    store is left as it is and the reply carries the reported message or
    the default one. *)
Theorem deleteTask_outcome (api : string -> IpcOutcome unit) (taskId : string)
    (store s : TaskState) :
  (forall result,
     api taskId = Resolved result -> IPCResult.success result = true ->
     fst (deleteTask api taskId store s) = DeleteReply.mk true None
     /\ tasks (snd (deleteTask api taskId store s)) =
          List.filter
            (fun t => negb (bool_decide (Task.id t = taskId))
                      && negb (bool_decide (Task.specId t = taskId)))
            (tasks store)
     /\ (forall t, t ∈ tasks (snd (deleteTask api taskId store s)) <->
                   t ∈ tasks store /\ Task.id t <> taskId /\ Task.specId t <> taskId)
     /\ selectedTaskId (snd (deleteTask api taskId store s)) =
          (if bool_decide (selectedTaskId store = Some taskId)
           then None else selectedTaskId s)
     /\ isLoading (snd (deleteTask api taskId store s)) = isLoading s
     /\ error (snd (deleteTask api taskId store s)) = error s)
  /\ (forall result,
        api taskId = Resolved result -> IPCResult.success result = false ->
        deleteTask api taskId store s =
          (DeleteReply.mk false
             (Some match IPCResult.error result with
                   | Some e => if bool_decide (e = "") then "Failed to delete task" else e
                   | None => "Failed to delete task"
                   end),
           s))
  /\ (forall msg,
        api taskId = Rejected msg ->
        deleteTask api taskId store s =
          (DeleteReply.mk false
             (Some match msg with Some m => m | None => "Unknown error" end),
           s)).
Proof.
  unfold deleteTask. split; [|split].
  - intros result Hr Hs. rewrite Hr, Hs. simpl.
    assert (Htasks : forall s0,
              tasks (if bool_decide (selectedTaskId store = Some taskId)
                     then selectTask None s0 else s0) = tasks s0).
    { intros s0. destruct (bool_decide _); reflexivity. }
    split; [reflexivity|]. split; [rewrite Htasks; reflexivity|]. split.
    + intros t. rewrite Htasks. simpl.
      rewrite list_elem_of_In, filter_In, <- list_elem_of_In.
      rewrite andb_true_iff, !negb_true_iff. unfold streq.
      rewrite !bool_decide_eq_false. tauto.
    + destruct (bool_decide (selectedTaskId store = Some taskId)); repeat split.
  - intros result Hr Hs. rewrite Hr, Hs. reflexivity.
  - intros msg Hr. rewrite Hr. destruct msg; reflexivity.
Qed.

Lemma deleteTask_outcome_witness :
  tasks (snd (deleteTask (fun _ => answerOk None) "001-first"
                (selectTask (Some "001-first") sampleStore) sampleStore))
    = [sampleTask "t2" "002-second" TaskStatus.backlog None (Some "ideation")]
  /\ selectedTaskId
       (snd (deleteTask (fun _ => answerOk None) "001-first"
               (selectTask (Some "001-first") sampleStore) sampleStore)) = None
  /\ deleteTask (fun _ => answerError "busy") "001-first" sampleStore sampleStore
       = (DeleteReply.mk false (Some "busy"), sampleStore).
Proof.
  destruct (deleteTask_outcome (fun _ => answerOk None) "001-first"
              (selectTask (Some "001-first") sampleStore) sampleStore)
    as [Hok _].
  destruct (Hok (IPCResult.mk true None None) eq_refl eq_refl)
    as (_ & Htasks & _ & Hsel & _).
  destruct (deleteTask_outcome (fun _ => answerError "busy") "001-first"
              sampleStore sampleStore)
    as (_ & Hfail & _).
  split; [rewrite Htasks; reflexivity|].
  split; [exact Hsel|].
  exact (Hfail (IPCResult.mk false None (Some "busy")) eq_refl eq_refl).
Defined.

(** X12: [persistTaskStatus] updates the store before it asks the control
    process and does not take the update back: whatever the answer, the
    store is the one [updateTaskStatus] gives, and the result is [true]
    exactly when the call resolved with success. *)
Theorem persistTaskStatus_no_rollback
    (api : string -> TaskStatus.t -> IpcOutcome unit)
    (now : Date) (taskId : string) (status : TaskStatus.t) (s : TaskState) :
  snd (persistTaskStatus api now taskId status s) = updateTaskStatus now taskId status s
  /\ (forall i t, tasks s !! i = Some t -> matchesId taskId t = true ->
        exists t', tasks (snd (persistTaskStatus api now taskId status s)) !! i = Some t'
                   /\ Task.status t' = status)
  /\ (fst (persistTaskStatus api now taskId status s) = true <->
        exists result, api taskId status = Resolved result
                       /\ IPCResult.success result = true).
Proof.
  assert (Hsnd : snd (persistTaskStatus api now taskId status s)
                 = updateTaskStatus now taskId status s).
  { unfold persistTaskStatus. destruct (api taskId status) as [result|msg];
      [destruct (IPCResult.success result)|]; reflexivity. }
  split; [exact Hsnd|]. split.
  - intros i t Hi Hm. rewrite Hsnd. exists (withStatus now status t).
    split; [|reflexivity].
    unfold updateTaskStatus. simpl. rewrite lookup_map, Hi. simpl. rewrite Hm. reflexivity.
  - unfold persistTaskStatus. destruct (api taskId status) as [result|msg].
    + destruct (IPCResult.success result) eqn:E; simpl.
      * split; [intros _; exists result; split; [reflexivity | exact E] | reflexivity].
      * split; [discriminate|]. intros [r [Hr Hs]]. injection Hr as <-. congruence.
    + simpl. split; [discriminate|]. intros [r [Hr _]]. discriminate Hr.
Qed.

(** X13: [persistUpdateTask] changes the store only when the control
    process answers with success and a task: it then returns [true], a
    matching task takes the title and description of the answer and the
    time stamp and keeps everything else, and the other tasks and the rest
    of the store are kept.  On an answer without success or without a
    task, and when the call is rejected, it returns [false] and leaves the
    store as it is. *)
Theorem persistUpdateTask_outcome
    (api : string -> TaskEdit.t -> IpcOutcome Task.t)
    (now : Date) (taskId : string) (updates : TaskEdit.t) (s : TaskState) :
  (forall result data,
     api taskId updates = Resolved result ->
     IPCResult.success result = true -> IPCResult.data result = Some data ->
     fst (persistUpdateTask api now taskId updates s) = true
     /\ length (tasks (snd (persistUpdateTask api now taskId updates s)))
        = length (tasks s)
     /\ selectedTaskId (snd (persistUpdateTask api now taskId updates s))
        = selectedTaskId s
     /\ isLoading (snd (persistUpdateTask api now taskId updates s)) = isLoading s
     /\ error (snd (persistUpdateTask api now taskId updates s)) = error s
     /\ forall i t, tasks s !! i = Some t ->
          (Task.id t = taskId \/ Task.specId t = taskId ->
             tasks (snd (persistUpdateTask api now taskId updates s)) !! i =
               Some (Task.mk (Task.id t) (Task.specId t) (Task.title data)
                       (Task.description data) (Task.status t)
                       (Task.reviewReason t) (Task.chunks t)
                       (Task.executionProgress t) (Task.metadata t)
                       (Task.logs t) (Task.createdAt t) now))
          /\ (Task.id t <> taskId /\ Task.specId t <> taskId ->
                tasks (snd (persistUpdateTask api now taskId updates s)) !! i = Some t))
  /\ (forall result,
        api taskId updates = Resolved result ->
        IPCResult.success result = false \/ IPCResult.data result = None ->
        persistUpdateTask api now taskId updates s = (false, s))
  /\ (forall msg,
        api taskId updates = Rejected msg ->
        persistUpdateTask api now taskId updates s = (false, s)).
Proof.
  unfold persistUpdateTask. split; [|split].
  - intros result data Hr Hs Hd. rewrite Hr, Hs, Hd. simpl.
    split; [reflexivity|]. split; [apply length_map|].
    split; [reflexivity|]. split; [reflexivity|]. split; [reflexivity|].
    intros i t Hi. rewrite lookup_map, Hi. simpl. split.
    + intros Hm. apply matchesId_spec in Hm. rewrite Hm. reflexivity.
    + intros [Hid Hspec].
      destruct (matchesId taskId t) eqn:E; [|reflexivity].
      apply matchesId_spec in E. destruct E; contradiction.
  - intros result Hr [Hs | Hd]; rewrite Hr.
    + rewrite Hs. reflexivity.
    + rewrite Hd. destruct (IPCResult.success result); reflexivity.
  - intros msg Hr. rewrite Hr. reflexivity.
Qed.

(** X14: [createTask] appends the created task to the end of the list and
    returns it when the control process answers with success and a task,
    and changes nothing else of the store.  On an answer without success
    or without a task, and when the call is rejected, it returns nothing,
    keeps the tasks and records the reported message or the default one
    as the error. *)
Theorem createTask_outcome
    (api : string -> string -> string -> option TaskMetadata.t -> IpcOutcome Task.t)
    (projectId title description : string) (metadata : option TaskMetadata.t)
    (s : TaskState) :
  (forall result data,
     api projectId title description metadata = Resolved result ->
     IPCResult.success result = true -> IPCResult.data result = Some data ->
     createTask api projectId title description metadata s =
       (Some data,
        mkTaskState (tasks s ++ [data])%list (selectedTaskId s) (isLoading s) (error s)))
  /\ (forall result,
        api projectId title description metadata = Resolved result ->
        IPCResult.success result = false \/ IPCResult.data result = None ->
        createTask api projectId title description metadata s =
          (None,
           mkTaskState (tasks s) (selectedTaskId s) (isLoading s)
             (Some match IPCResult.error result with
                   | Some e => if bool_decide (e = "") then "Failed to create task" else e
                   | None => "Failed to create task"
                   end)))
  /\ (forall msg,
        api projectId title description metadata = Rejected msg ->
        createTask api projectId title description metadata s =
          (None,
           mkTaskState (tasks s) (selectedTaskId s) (isLoading s)
             (Some match msg with Some m => m | None => "Unknown error" end))).
Proof.
  unfold createTask. split; [|split].
  - intros result data Hr Hs Hd. rewrite Hr, Hs, Hd. reflexivity.
  - intros result Hr [Hs | Hd]; rewrite Hr.
    + rewrite Hs. reflexivity.
    + rewrite Hd. destruct (IPCResult.success result); reflexivity.
  - intros msg Hr. rewrite Hr. destruct msg; reflexivity.
Qed.


(** X16: [submitReview] reports [true] exactly when the call resolved with
    success.  Then every matching task has the status [done] (approved) or
    [in_progress] (rejected); in every other case the store is left as it
    is. *)
Theorem submitReview_outcome
    (api : string -> bool -> option jsstring -> IpcOutcome unit)
    (now : Date) (taskId : string) (approved : bool)
    (feedback : option jsstring) (s : TaskState) :
  (fst (submitReview api now taskId approved feedback s) = true <->
     exists result, api taskId approved feedback = Resolved result
                    /\ IPCResult.success result = true)
  /\ (fst (submitReview api now taskId approved feedback s) = true ->
        forall i t, tasks s !! i = Some t -> matchesId taskId t = true ->
          exists t', tasks (snd (submitReview api now taskId approved feedback s)) !! i
                       = Some t' /\
            Task.status t' =
              (if approved then TaskStatus.done else TaskStatus.in_progress))
  /\ (fst (submitReview api now taskId approved feedback s) = false ->
        snd (submitReview api now taskId approved feedback s) = s).
Proof.
  unfold submitReview.
  destruct (api taskId approved feedback) as [result|msg]; simpl.
  - destruct (IPCResult.success result) eqn:E; simpl.
    + split; [split; [intros _; exists result; split; [reflexivity | exact E]
                     | reflexivity]|].
      split; [|discriminate].
      intros _ i t Hi Hm. eexists.
      unfold updateTaskStatus. simpl. rewrite lookup_map, Hi. simpl. rewrite Hm.
      split; reflexivity.
    + split; [split; [discriminate|]|].
      * intros [r [Hr Hs]]. injection Hr as <-. congruence.
      * split; [discriminate | reflexivity].
  - split; [split; [discriminate|]|].
    + intros [r [Hr _]]. discriminate Hr.
    + split; [discriminate | reflexivity].
Qed.


(** ** Task creation drafts *)

Lemma blank_or_visible (s : jsstring) :
  Forall (fun c => isWhiteSpace c = true) s
  \/ Exists (fun c => isWhiteSpace c = false) s.
Proof.
  induction s as [|c s [IH | IH]].
  - left. constructor.
  - destruct (isWhiteSpace c) eqn:E.
    + left. constructor; assumption.
    + right. left. exact E.
  - right. right. exact IH.
Qed.

Lemma trim_falsy (s : jsstring) :
  negb (truthy (trim s)) = true <-> Forall (fun c => isWhiteSpace c = true) s.
Proof.
  split.
  - intros Hfalsy. destruct (blank_or_visible s) as [Hall | Hex]; [exact Hall|].
    exfalso. apply trim_visible in Hex.
    destruct (trim s) as [|c r]; [congruence | discriminate Hfalsy].
  - intros Hall. rewrite (trim_blank s Hall). reflexivity.
Qed.

Lemma truthyStr_false (x : option string) :
  negb (truthyStr x) = true <-> x = None \/ x = Some "".
Proof.
  unfold truthyStr. destruct x as [v|]; simpl.
  - rewrite negb_involutive, streq_true. split.
    + intros ->. right. reflexivity.
    + intros [H | H]; [discriminate | congruence].
  - split; [intros _; left; reflexivity | reflexivity].
Qed.

(** X18: [isDraftEmpty] holds of a missing draft, and of a draft exactly
    when its title and its description are empty or white space only, it
    has no image, and its category, priority, complexity and impact are
    unset or the empty string. *)
Theorem isDraftEmpty_iff (draft : option TaskDraft.t) :
  isDraftEmpty draft = true <->
  draft = None \/
  exists d, draft = Some d /\
    Forall (fun c => isWhiteSpace c = true) (TaskDraft.title d) /\
    Forall (fun c => isWhiteSpace c = true) (TaskDraft.description d) /\
    TaskDraft.images d = [] /\
    (TaskDraft.category d = None \/ TaskDraft.category d = Some "") /\
    (TaskDraft.priority d = None \/ TaskDraft.priority d = Some "") /\
    (TaskDraft.complexity d = None \/ TaskDraft.complexity d = Some "") /\
    (TaskDraft.impact d = None \/ TaskDraft.impact d = Some "").
Proof.
  destruct draft as [d|]; simpl.
  - rewrite !andb_true_iff, !trim_falsy, !truthyStr_false, Nat.eqb_eq, length_zero_iff_nil.
    split.
    + intros [[[[[[Ht Hd] Hi] Hc] Hp] Hx] Hm]. right. exists d. tauto.
    + intros [Hnone | [d' [Hsome H]]]; [discriminate|].
      injection Hsome as <-. tauto.
  - split; [intros _; left; reflexivity | reflexivity].
Qed.

Lemma append_inj_r (s a b : string) : (s ++ a = s ++ b)%string -> a = b.
Proof.
  induction s as [|c s IH]; simpl; intros H; [exact H|].
  injection H as H. apply IH. exact H.
Qed.

Lemma getDraftKey_inj (p q : string) : getDraftKey p = getDraftKey q -> p = q.
Proof.
  unfold getDraftKey. intros H.
  apply append_inj_r in H. apply append_inj_r in H. exact H.
Qed.

(** X19: the drafts of different projects do not interfere: saving or
    clearing the draft of one project changes neither [hasDraft] nor
    [loadDraft] of another. *)
Theorem drafts_isolated (stringify : TaskDraft.t -> string)
    (parseDraft : string -> option TaskDraft.t)
    (now : Date) (accepted : bool) (draft : TaskDraft.t) (q : string)
    (localStorage : gmap string string) :
  TaskDraft.projectId draft <> q ->
  hasDraft q (saveDraft stringify now accepted draft localStorage)
    = hasDraft q localStorage
  /\ loadDraft parseDraft q (saveDraft stringify now accepted draft localStorage)
     = loadDraft parseDraft q localStorage
  /\ hasDraft q (clearDraft (TaskDraft.projectId draft) localStorage)
     = hasDraft q localStorage
  /\ loadDraft parseDraft q (clearDraft (TaskDraft.projectId draft) localStorage)
     = loadDraft parseDraft q localStorage.
Proof.
  intros Hne.
  assert (Hkey : getDraftKey (TaskDraft.projectId draft) <> getDraftKey q).
  { intros H. apply Hne. apply getDraftKey_inj. exact H. }
  unfold hasDraft, loadDraft, saveDraft, clearDraft.
  rewrite (lookup_delete_ne localStorage _ _ Hkey).
  destruct accepted; [rewrite (lookup_insert_ne localStorage _ _ _ Hkey)|];
    repeat split; reflexivity.
Qed.

Lemma drafts_isolated_witness :
  hasDraft "p2" (saveDraft (fun _ => "{}") 5 true sampleDraft ∅) = false
  /\ hasDraft "p2" (clearDraft "p1" {[ getDraftKey "p2" := "{}" ]}) = true.
Proof.
  assert (Hne : TaskDraft.projectId sampleDraft <> "p2") by discriminate.
  destruct (drafts_isolated (fun _ => "{}") (fun _ => None) 5 true sampleDraft "p2" ∅ Hne)
    as (Hsave & _).
  destruct (drafts_isolated (fun _ => "{}") (fun _ => None) 5 true sampleDraft "p2"
              {[ getDraftKey "p2" := "{}" ]} Hne)
    as (_ & _ & Hclear & _).
  split.
  - rewrite Hsave. reflexivity.
  - change "p1" with (TaskDraft.projectId sampleDraft). rewrite Hclear. reflexivity.
Defined.

(** X20: a draft that was saved is found again, and is loaded back as it
    was, except that it has the time of saving and that the data of every
    image is removed, provided its serialisation is read back as written;
    after [clearDraft] the project has no draft.  A draft that the storage
    refused is not stored. *)
Theorem draft_round_trip (stringify : TaskDraft.t -> string)
    (parseDraft : string -> option TaskDraft.t)
    (now : Date) (draft : TaskDraft.t) (localStorage : gmap string string) :
  stringify (draftToStore now draft) <> "" ->
  parseDraft (stringify (draftToStore now draft)) = Some (draftToStore now draft) ->
  hasDraft (TaskDraft.projectId draft)
    (saveDraft stringify now true draft localStorage) = true
  /\ loadDraft parseDraft (TaskDraft.projectId draft)
       (saveDraft stringify now true draft localStorage) =
       Some (TaskDraft.mk (TaskDraft.projectId draft) (TaskDraft.title draft)
               (TaskDraft.description draft) (TaskDraft.category draft)
               (TaskDraft.priority draft) (TaskDraft.complexity draft)
               (TaskDraft.impact draft)
               (map (fun img =>
                       ImageAttachment.mk (ImageAttachment.id img)
                         (ImageAttachment.filename img) (ImageAttachment.mimeType img)
                         (ImageAttachment.size img) None (ImageAttachment.thumbnail img))
                    (TaskDraft.images draft))
               now)
  /\ hasDraft (TaskDraft.projectId draft)
       (clearDraft (TaskDraft.projectId draft)
          (saveDraft stringify now true draft localStorage)) = false
  /\ loadDraft parseDraft (TaskDraft.projectId draft)
       (clearDraft (TaskDraft.projectId draft)
          (saveDraft stringify now true draft localStorage)) = None
  /\ saveDraft stringify now false draft localStorage = localStorage.
Proof.
  intros Hnonempty Hparse.
  unfold hasDraft, loadDraft, saveDraft, clearDraft.
  rewrite lookup_insert_eq, lookup_delete_eq.
  split; [apply bool_decide_eq_true; eexists; reflexivity|].
  split.
  - assert (Hstr : streq (stringify (draftToStore now draft)) "" = false).
    { unfold streq. apply bool_decide_eq_false. exact Hnonempty. }
    rewrite Hstr, Hparse. reflexivity.
  - split; [|split; reflexivity].
    apply bool_decide_eq_false. intros [v Hv]. discriminate Hv.
Qed.

Lemma draft_round_trip_witness :
  loadDraft (fun _ => Some (draftToStore 5 sampleDraft)) "p1"
    (saveDraft (fun _ => "{}") 5 true sampleDraft ∅) =
  Some (TaskDraft.mk "p1" [70; 105; 120]%N [32]%N (Some "bug_fix") None None (Some "")
          [ImageAttachment.mk "i1" "shot.png" "image/png" 2048 None (Some "aa")] 5).
Proof.
  assert (Hnonempty : (fun _ : TaskDraft.t => "{}") (draftToStore 5 sampleDraft) <> "")
    by discriminate.
  destruct (draft_round_trip (fun _ => "{}") (fun _ => Some (draftToStore 5 sampleDraft))
              5 sampleDraft ∅ Hnonempty eq_refl)
    as (_ & Hload & _).
  exact Hload.
Defined.

(** ** The helpers that read the chunks *)

Lemma length_filter_le {A : Type} (f : A -> bool) (l : list A) :
  (length (List.filter f l) <= length l)%nat.
Proof.
  induction l as [|x l IH]; simpl; [lia|].
  destruct (f x); simpl; lia.
Qed.

(** X21: [getCompletedChunkCount] never exceeds the number of chunks, and
    [isIncompleteHumanReview] holds of a task exactly when the task is in
    [human_review] and [getCompletedChunkCount] is zero. *)
Theorem isIncompleteHumanReview_count (task : Task.t) :
  (getCompletedChunkCount task <= length (default [] (Task.chunks task)))%nat
  /\ (isIncompleteHumanReview task = true <->
        Task.status task = TaskStatus.human_review
        /\ getCompletedChunkCount task = 0%nat).
Proof.
  unfold getCompletedChunkCount, isIncompleteHumanReview. split.
  - destruct (Task.chunks task) as [chunks|]; simpl; [|lia].
    destruct chunks as [|c chunks]; [simpl; lia|].
    change (length (c :: chunks) =? 0)%nat with false. cbv iota.
    apply length_filter_le.
  - destruct (decide (Task.status task = TaskStatus.human_review)) as [Hs | Hs].
    + rewrite (bool_decide_eq_true_2 _ Hs). simpl.
      destruct (Task.chunks task) as [chunks|]; [|tauto].
      destruct chunks as [|c chunks]; [simpl; tauto|].
      change (length (c :: chunks) =? 0)%nat with false. cbv iota.
      rewrite Nat.eqb_eq. tauto.
    + rewrite (bool_decide_eq_false_2 _ Hs). simpl.
      split; [discriminate | intros [Hs' _]; contradiction].
Qed.

(** ** The action button of the task detail panel *)

Lemma isIncompleteHumanReview_status (task : Task.t) :
  isIncompleteHumanReview task = true -> Task.status task = TaskStatus.human_review.
Proof.
  unfold isIncompleteHumanReview.
  destruct (decide (Task.status task = TaskStatus.human_review)) as [Hs | Hs].
  - intros _. exact Hs.
  - rewrite (bool_decide_eq_false_2 _ Hs). discriminate.
Qed.

(** X22: the action button and its handler agree.  The button reads
    "Recover" exactly for a stuck task, otherwise "Resume" exactly for an
    incomplete human review, otherwise "Stop" exactly for a task in
    [in_progress] and "Start" exactly for a task in [backlog]; a click on
    "Stop" calls [stopTask], a click on "Start" or "Resume" calls
    [startTask]. *)
Theorem actionButton_handler (task : Task.t) (isStuck : bool) :
  (actionButton task isStuck = RecoverTaskButton <-> isStuck = true)
  /\ (actionButton task isStuck = ResumeTaskButton <->
        isStuck = false /\ isIncompleteHumanReview task = true)
  /\ (actionButton task isStuck = StopTaskButton <->
        isStuck = false /\ Task.status task = TaskStatus.in_progress)
  /\ (actionButton task isStuck = StartTaskButton <->
        isStuck = false /\ Task.status task = TaskStatus.backlog)
  /\ (actionButton task isStuck = StopTaskButton ->
        handleStartStop task isStuck = Worker.StopTask (Task.id task))
  /\ (actionButton task isStuck = StartTaskButton
      \/ actionButton task isStuck = ResumeTaskButton ->
        handleStartStop task isStuck = Worker.StartTask (Task.id task)).
Proof.
  unfold actionButton, handleStartStop.
  destruct isStuck; simpl.
  { repeat split; try discriminate; try (intros [H _]; discriminate H);
      try (intros [H | H]; discriminate H); reflexivity. }
  destruct (isIncompleteHumanReview task) eqn:Einc.
  { pose proof (isIncompleteHumanReview_status task Einc) as Hs. rewrite Hs. simpl.
    repeat split; try discriminate; try reflexivity;
      try (intros [_ H]; discriminate H). }
  destruct (Task.status task) eqn:Hs; simpl;
    repeat split; try discriminate; try reflexivity;
    try (intros [_ H]; discriminate H);
    try (intros [H | H]; discriminate H).
Qed.

(** ** The log phases of the task detail panel *)

(** X23: [togglePhase] is its own inverse: toggling a phase twice gives
    back the view, and one toggle changes the membership of that phase and
    of no other. *)
Theorem togglePhase_involutive (phase : TaskLogPhase.t) (v : LogView.t) :
  togglePhase phase (togglePhase phase v) = v
  /\ (phase ∈ LogView.expandedPhases (togglePhase phase v) <->
        phase ∉ LogView.expandedPhases v)
  /\ (forall other, other <> phase ->
        (other ∈ LogView.expandedPhases (togglePhase phase v) <->
         other ∈ LogView.expandedPhases v)).
Proof.
  destruct v as [logs loading expanded]. unfold togglePhase. simpl.
  destruct (decide (phase ∈ expanded)) as [Hin | Hout].
  - rewrite (bool_decide_eq_true_2 _ Hin).
    assert (Hnot : phase ∉ expanded ∖ {[ phase ]}) by set_solver.
    rewrite (bool_decide_eq_false_2 _ Hnot).
    split; [|split].
    + f_equal. apply set_eq. intros x.
      destruct (decide (x = phase)) as [-> | Hx]; set_solver.
    + set_solver.
    + intros other Hother. set_solver.
  - rewrite (bool_decide_eq_false_2 _ Hout).
    assert (Hnow : phase ∈ expanded ∪ {[ phase ]}) by set_solver.
    rewrite (bool_decide_eq_true_2 _ Hnow).
    split; [|split].
    + f_equal. apply set_eq. intros x.
      destruct (decide (x = phase)) as [-> | Hx]; set_solver.
    + set_solver.
    + intros other Hother. set_solver.
Qed.

Lemma activePhase_some (logs : TaskLogs.t) (phase : TaskLogPhase.t) :
  activePhase logs = Some phase -> isActivePhase logs phase = true.
Proof.
  unfold activePhase. intros H. apply find_some in H. apply H.
Qed.

Lemma activePhase_none (logs : TaskLogs.t) :
  activePhase logs = None -> forall phase, isActivePhase logs phase = false.
Proof.
  unfold activePhase. intros H phase.
  apply (find_none _ _ H). destruct phase; simpl; tauto.
Qed.

(** X24: a change of the logs never collapses a phase.  For the spec id of
    the task, the listener stores the logs and expands one more phase at
    most, which is active in them; if some phase is active, an active
    phase is expanded afterwards.  Logs of another spec id leave the view
    as it is. *)
Theorem onTaskLogsChanged_expands (task : Task.t) (specId : string)
    (logs : TaskLogs.t) (v : LogView.t) :
  LogView.expandedPhases v ⊆ LogView.expandedPhases (onTaskLogsChanged task specId logs v)
  /\ (forall phase,
        phase ∈ LogView.expandedPhases (onTaskLogsChanged task specId logs v) ->
        phase ∈ LogView.expandedPhases v
        \/ (specId = Task.specId task /\ activePhase logs = Some phase
            /\ isActivePhase logs phase = true))
  /\ (specId = Task.specId task ->
        LogView.phaseLogs (onTaskLogsChanged task specId logs v) = Some logs
        /\ forall phase, isActivePhase logs phase = true ->
             exists first, isActivePhase logs first = true /\
               first ∈ LogView.expandedPhases (onTaskLogsChanged task specId logs v))
  /\ (specId <> Task.specId task -> onTaskLogsChanged task specId logs v = v).
Proof.
  unfold onTaskLogsChanged.
  destruct (decide (specId = Task.specId task)) as [Heq | Hne].
  - unfold streq. rewrite (bool_decide_eq_true_2 _ Heq). simpl.
    destruct (activePhase logs) as [first|] eqn:Eactive.
    + pose proof (activePhase_some logs first Eactive) as Hfirst.
      split; [set_solver|]. split; [|split].
      * intros phase Hin. apply elem_of_union in Hin as [Hin | Hin]; [left; exact Hin|].
        apply elem_of_singleton in Hin as ->. right. repeat split; assumption.
      * intros _. split; [reflexivity|]. intros phase _.
        exists first. split; [exact Hfirst | set_solver].
      * intros Hne. contradiction.
    + split; [set_solver|]. split; [|split].
      * intros phase Hin. left. exact Hin.
      * intros _. split; [reflexivity|]. intros phase Hactive.
        rewrite (activePhase_none logs Eactive phase) in Hactive. discriminate.
      * intros Hne. contradiction.
  - unfold streq. rewrite (bool_decide_eq_false_2 _ Hne).
    split; [set_solver|]. split; [|split].
    + intros phase Hin. left. exact Hin.
    + intros Heq. contradiction.
    + intros _. reflexivity.
Qed.

(** X25: [loadLogs] always ends with the loading flag lowered.  An answer
    with success and logs is stored, and when some phase is active in it
    exactly one phase is expanded afterwards, an active one, whatever was
    expanded before; when none is active, and on every other answer, the
    expanded phases are kept. *)
Theorem loadLogs_outcome (outcome : IpcOutcome TaskLogs.t) (v : LogView.t) :
  LogView.isLoadingLogs (loadLogs outcome v) = false
  /\ (forall result data,
        outcome = Resolved result ->
        IPCResult.success result = true -> IPCResult.data result = Some data ->
        LogView.phaseLogs (loadLogs outcome v) = Some data
        /\ ((exists phase, isActivePhase data phase = true) ->
              exists first, isActivePhase data first = true /\
                LogView.expandedPhases (loadLogs outcome v) = {[ first ]})
        /\ ((forall phase, isActivePhase data phase = false) ->
              LogView.expandedPhases (loadLogs outcome v) = LogView.expandedPhases v))
  /\ (forall result,
        outcome = Resolved result ->
        IPCResult.success result = false \/ IPCResult.data result = None ->
        LogView.phaseLogs (loadLogs outcome v) = LogView.phaseLogs v
        /\ LogView.expandedPhases (loadLogs outcome v) = LogView.expandedPhases v)
  /\ (forall msg,
        outcome = Rejected msg ->
        LogView.phaseLogs (loadLogs outcome v) = LogView.phaseLogs v
        /\ LogView.expandedPhases (loadLogs outcome v) = LogView.expandedPhases v).
Proof.
  unfold loadLogs. destruct outcome as [result|msg].
  - split; [destruct (IPCResult.success result), (IPCResult.data result); reflexivity|].
    split; [|split].
    + intros r data Hr Hs Hd. injection Hr as <-. rewrite Hs, Hd. simpl.
      split; [reflexivity|]. split.
      * intros [phase Hactive].
        destruct (activePhase data) as [first|] eqn:Eactive.
        -- exists first. split; [apply activePhase_some; exact Eactive | reflexivity].
        -- rewrite (activePhase_none data Eactive phase) in Hactive. discriminate.
      * intros Hnone.
        destruct (activePhase data) as [first|] eqn:Eactive; [|reflexivity].
        apply activePhase_some in Eactive. rewrite Hnone in Eactive. discriminate.
    + intros r Hr Hbad. injection Hr as <-. destruct Hbad as [Hs | Hd].
      * rewrite Hs. split; reflexivity.
      * rewrite Hd. destruct (IPCResult.success result); split; reflexivity.
    + intros m Hm. discriminate Hm.
  - split; [reflexivity|]. split; [|split].
    + intros r d Hr. discriminate Hr.
    + intros r Hr. discriminate Hr.
    + intros m _. split; reflexivity.
Qed.

(** ** Chunks rebuilt from a plan, unknown identifiers, submitted feedback *)

Lemma planChunks_shape (phases : list PlanPhase.t) :
  let chunks := flat_map (fun phase => map chunkOfPlan (PlanPhase.chunks phase)) phases in
  length chunks = list_sum (map (fun phase => length (PlanPhase.chunks phase)) phases)
  /\ Forall (fun c => Chunk.files c = [] /\ Chunk.title c = Chunk.description c) chunks
  /\ map Chunk.status chunks
     = flat_map (fun phase => map PlanChunk.status (PlanPhase.chunks phase)) phases.
Proof.
  induction phases as [|phase phases (IHlen & IHall & IHst)]; simpl.
  - repeat split. constructor.
  - rewrite length_app, length_map, map_app, map_map. split; [|split].
    + simpl in IHlen. rewrite IHlen. reflexivity.
    + apply Forall_app. split; [|exact IHall].
      induction (PlanPhase.chunks phase) as [|c l IH]; simpl; constructor;
        [split; reflexivity | exact IH].
    + simpl in IHst. rewrite IHst. reflexivity.
Qed.

(** X26: [updateTaskFromPlan] replaces the chunks of a matching task by
    the chunks of the plan, phase after phase: there are as many as the
    phases hold together, with the statuses of the plan in that order, and
    each has an empty file list and its description as title. *)
Theorem updateTaskFromPlan_chunks (now : Date) (taskId : string)
    (plan : ImplementationPlan.t) (s : TaskState) (i : nat) (t : Task.t) :
  tasks s !! i = Some t ->
  matchesId taskId t = true ->
  exists t' chunks,
    tasks (updateTaskFromPlan now taskId plan s) !! i = Some t' /\
    Task.chunks t' = Some chunks /\
    length chunks
      = list_sum (map (fun phase => length (PlanPhase.chunks phase))
                    (ImplementationPlan.phases plan)) /\
    map Chunk.status chunks
      = flat_map (fun phase => map PlanChunk.status (PlanPhase.chunks phase))
          (ImplementationPlan.phases plan) /\
    Forall (fun c => Chunk.files c = [] /\ Chunk.title c = Chunk.description c) chunks.
Proof.
  intros Hi Hm.
  destruct (planChunks_shape (ImplementationPlan.phases plan)) as (Hlen & Hall & Hst).
  eexists. exists (planChunks plan).
  split; [apply (updateTaskFromPlan_lookup now taskId plan s i t Hi Hm)|].
  split; [reflexivity|]. split; [exact Hlen|]. split; [exact Hst | exact Hall].
Qed.

Lemma updateTaskFromPlan_chunks_witness :
  exists t' chunks,
    tasks (updateTaskFromPlan 7 "t1"
             (samplePlan ChunkStatus.completed ChunkStatus.failed ChunkStatus.pending)
             sampleStore) !! 0%nat = Some t' /\
    Task.chunks t' = Some chunks /\
    length chunks = 3%nat /\
    map Chunk.status chunks
      = [ChunkStatus.completed; ChunkStatus.failed; ChunkStatus.pending].
Proof.
  destruct (updateTaskFromPlan_chunks 7 "t1"
              (samplePlan ChunkStatus.completed ChunkStatus.failed ChunkStatus.pending)
              sampleStore 0%nat
              (sampleTask "t1" "001-first" TaskStatus.in_progress None (Some "manual"))
              eq_refl eq_refl)
    as (t' & chunks & Hlookup & Hchunks & Hlen & Hst & _).
  exists t', chunks.
  split; [exact Hlookup|]. split; [exact Hchunks|]. split; [exact Hlen | exact Hst].
Defined.

Lemma map_unmatched (f : Task.t -> Task.t) (taskId : string) (l : list Task.t) :
  Forall (fun t => matchesId taskId t = false) l ->
  map (fun t => if matchesId taskId t then f t else t) l = l.
Proof.
  intros Hall. induction Hall as [|t l Ht _ IH]; simpl; [reflexivity|].
  rewrite Ht, IH. reflexivity.
Qed.

(** X27: an identifier that is neither the [id] nor the [specId] of any
    task is a silent no-op: each of the five operations that rewrite tasks
    returns the store as it was. *)
Theorem mutation_unknown_id (m : Mutation) (s : TaskState) :
  Forall (fun t => Task.id t <> target m /\ Task.specId t <> target m) (tasks s) ->
  run m s = s.
Proof.
  intros Hall.
  assert (Hun : Forall (fun t => matchesId (target m) t = false) (tasks s)).
  { eapply Forall_impl; [exact Hall|]. intros t [Hid Hspec].
    destruct (matchesId (target m) t) eqn:E; [|reflexivity].
    apply matchesId_spec in E. destruct E; contradiction. }
  destruct s as [ts sel loading err].
  destruct m as [taskId updates|now taskId status|now taskId plan
                |now taskId progress|taskId log]; simpl in *;
    unfold updateTask, updateTaskStatus, updateTaskFromPlan,
           updateExecutionProgress, appendLog, set_tasks; simpl; f_equal.
  - apply map_unmatched. exact Hun.
  - apply map_unmatched. exact Hun.
  - rewrite (map_ext (planUpdate now taskId plan)
               (fun t => if matchesId taskId t then withPlan now plan t else t)).
    + apply map_unmatched. exact Hun.
    + intros t. unfold planUpdate. rewrite guard_matchesId.
      destruct (matchesId taskId t); reflexivity.
  - rewrite (map_ext (progressUpdate now taskId progress)
               (fun t => if matchesId taskId t then withProgress now progress t else t)).
    + apply map_unmatched. exact Hun.
    + intros t. unfold progressUpdate. rewrite guard_matchesId.
      destruct (matchesId taskId t); reflexivity.
  - apply map_unmatched. exact Hun.
Qed.

Lemma mutation_unknown_id_witness :
  run (UpdateTaskStatus 9 "t9" TaskStatus.done) sampleStore = sampleStore.
Proof.
  apply (mutation_unknown_id (UpdateTaskStatus 9 "t9" TaskStatus.done) sampleStore).
  simpl. repeat constructor; discriminate.
Defined.

(** X28: [handleReject] calls [submitReview] exactly when the feedback has
    a character that is not white space; it then passes the feedback as
    typed, white space around it included, as a rejection of this task,
    and clears the feedback afterwards. *)
Theorem handleReject_submits_iff (task : Task.t) (st : Panel.State) :
  (existsb Panel.callsSubmitReview (Panel.handleReject task st) = true <->
     Exists (fun c => isWhiteSpace c = false) (Panel.feedback st))
  /\ (forall e, In e (Panel.handleReject task st) ->
        Panel.callsSubmitReview e = true ->
        e = Panel.SubmitReview (Task.id task) false (Some (Panel.feedback st)))
  /\ (Panel.handleReject task st <> [] ->
        last (Panel.handleReject task st) = Some (Panel.SetFeedback [])).
Proof.
  destruct (blank_or_visible (Panel.feedback st)) as [Hblank | Hvisible].
  - unfold Panel.handleReject. rewrite (trim_blank _ Hblank). simpl.
    split; [split; [discriminate|]|].
    + intros Hex. exfalso.
      apply Exists_exists in Hex as [c [Hin Hc]].
      rewrite Forall_forall in Hblank. specialize (Hblank c Hin). congruence.
    + split; [intros e []|]. intros H. contradiction.
  - rewrite (handleReject_submits task st Hvisible). simpl.
    split; [split; [intros _; exact Hvisible | reflexivity]|].
    split; [|reflexivity].
    intros e [<- | [<- | [<- | [<- | []]]]]; simpl; intros H;
      try discriminate H; reflexivity.
Qed.
